(** * tofpet3d: the Python front end of the list-mode MLEM-TOF reconstruction

    Shallow embedding of [src/mlem/mlem_reconstruct.py] (class
    [MLEMReconstructor]: [__init__], [read_image], [reconstruct]) and the
    properties of it that the specification states.

    The numerical engine ([MLEM_TOF_Reco], a C library reached through
    ctypes) is not part of the Python source: it is a parameter of the
    development, and every call to it is recorded in the trace of the
    program. *)

From Stdlib Require Import ZArith String Ascii Strings.Byte DecimalString Lia.
From Stdlib Require DecimalZ.
From stdpp Require Import base list strings.

Local Open Scope string_scope.
Local Open Scope list_scope.
Local Open Scope nat_scope.

(** ** Python strings *)

Module Py.

(** [str(n)] for a non-negative integer and for an integer. *)
Definition str_nat (n : nat) : string :=
  NilZero.string_of_uint (Nat.to_uint n).

Definition str_int (z : Z) : string :=
  NilZero.string_of_int (Z.to_int z).

(** [s.split(sep)] for a one-character separator: one more piece than
    there are separators, empty pieces kept. *)
Fixpoint split (sep : ascii) (s : string) : list string :=
  match s with
  | EmptyString => [EmptyString]
  | String c s' =>
      if Ascii.eqb c sep then EmptyString :: split sep s'
      else match split sep s' with
           | piece :: pieces => String c piece :: pieces
           | [] => [String c EmptyString]
           end
  end.

(** The slice [l[:-1]]. *)
Fixpoint but_last {A} (l : list A) : list A :=
  match l with
  | [] => []
  | [_] => []
  | x :: l' => x :: but_last l'
  end.

(** Whether a character occurs in a string ([c in s]). *)
Fixpoint occurs (c : ascii) (s : string) : bool :=
  match s with
  | EmptyString => false
  | String c' s' => Ascii.eqb c' c || occurs c s'
  end.

(** ctypes [c_int]: a Python integer is cut to 32 bits, two's complement,
    with no overflow check. *)
Definition c_int (z : Z) : Z :=
  ((z + 2 ^ 31) mod 2 ^ 32 - 2 ^ 31)%Z.

End Py.

(** ** The file system, as [os.path] and [open] see it *)

Inductive node :=
| Directory
| File (content : list byte).

(** A file system maps a path to what is there, if anything. *)
Definition filesystem := string → option node.

(** [os.path.exists(p)]: [stat] fails on the empty path whatever the file
    system holds, so the empty string never exists. *)
Definition path_exists (fs : filesystem) (p : string) : bool :=
  match p with
  | EmptyString => false
  | _ => match fs p with Some _ => true | None => false end
  end.

(** [os.path.isfile(p)]. *)
Definition path_isfile (fs : filesystem) (p : string) : bool :=
  match p with
  | EmptyString => false
  | _ => match fs p with Some (File _) => true | _ => false end
  end.

(** [open(p,'rb').read()] of a path for which [isfile] holds. *)
Definition file_bytes (fs : filesystem) (p : string) : list byte :=
  match fs p with
  | Some (File content) => content
  | _ => []
  end.

(** ** Index arithmetic *)

(** The voxel of flat position [ivox], as both loops of the source compute
    it:
<<
    i = int(ivox % xdim)
    j = int(ivox / xdim) % ydim
    k = int(ivox / (xdim*ydim))
>>
    [ivox / xdim] is Python's true division followed by [int]; on the
    non-negative integers below 2^53 that an image can have as positions it
    is the integer quotient. *)
Definition voxel_of (xdim ydim ivox : nat) : nat * nat * nat :=
  (ivox mod xdim, (ivox / xdim) mod ydim, ivox / (xdim * ydim)).

(** The flat position of voxel [(i,j,k)], x fastest, then y, then z. *)
Definition flat_index (nx ny i j k : nat) : nat :=
  i + j * nx + k * nx * ny.

(** ** NumPy arrays *)

Inductive dtype := float32 | float64.

Section Arrays.

Context {A : Type}.

(** An array is its element type, its shape and its elements in row-major
    (C) order, numpy's default layout. *)
Record ndarray := Ndarray {
  arr_dtype : dtype;
  shape : list nat;
  data : list A
}.

Definition size_of (sh : list nat) : nat := foldr Nat.mul 1 sh.

(** [a.size] *)
Definition size (a : ndarray) : nat := size_of (shape a).

(** Every array numpy builds holds as many elements as its shape says. *)
Definition well_formed (a : ndarray) : Prop :=
  length (data a) = size a.

(** An index tuple is valid when it has one entry per axis, each within
    the axis. *)
Fixpoint in_bounds (sh idx : list nat) : bool :=
  match sh, idx with
  | [], [] => true
  | d :: sh', i :: idx' => Nat.ltb i d && in_bounds sh' idx'
  | _, _ => false
  end.

(** Row-major offset of an index tuple. *)
Fixpoint c_offset (acc : nat) (sh idx : list nat) : nat :=
  match sh, idx with
  | d :: sh', i :: idx' => c_offset (acc * d + i) sh' idx'
  | _, _ => acc
  end.

(** [a[idx]]; [None] stands for numpy's IndexError. *)
Definition getitem (a : ndarray) (idx : list nat) : option A :=
  if in_bounds (shape a) idx then data a !! c_offset 0 (shape a) idx
  else None.

(** [a[idx] = w]; [None] stands for numpy's IndexError. *)
Definition setitem (a : ndarray) (idx : list nat) (w : A) : option ndarray :=
  if in_bounds (shape a) idx
  then Some (Ndarray (arr_dtype a) (shape a)
               (<[c_offset 0 (shape a) idx := w]> (data a)))
  else None.

(** The index tuple at position [p] of the column-major (Fortran) order,
    first axis fastest. *)
Fixpoint unravel_F (sh : list nat) (p : nat) : list nat :=
  match sh with
  | [] => []
  | d :: sh' => p mod d :: unravel_F sh' (p / d)
  end.

(** [a.flatten('F')]: the [a.size] elements in column-major order. The
    fallback value is never read on a well-formed array. *)
Definition flatten_F (fallback : A) (a : ndarray) : list A :=
  (λ p, default fallback (getitem a (unravel_F (shape a) p)))
    <$> seq 0 (size a).

(** An array of the given element type and shape with one value
    everywhere ([np.zeros], [np.ones]). *)
Definition full (t : dtype) (sh : list nat) (v : A) : ndarray :=
  Ndarray t sh (replicate (size_of sh) v).

End Arrays.

Arguments ndarray : clear implicits.

(** ** Effects of the Python code *)

(** The exceptions the modelled statements can raise. *)
Inductive exn := OSError | StructError | IndexError | ZeroDivisionError.

(** How a call ends: with a value handed back to the caller, with the
    process terminated by [sys.exit], or with an exception. *)
Inductive outcome (A : Type) :=
| Returned (a : A)
| Exited (status : Z)
| Raised (e : exn).

Arguments Returned {A} a.
Arguments Exited {A} status.
Arguments Raised {A} e.

Section MLEM.

(** Floating-point values, and the operations on them that the Python
    code leaves to its libraries. *)
Variable float : Type.
(** [0.0], the element of [np.zeros]. *)
Variable zero : float.
(** [1.0] in single precision, the element of
    [np.ones(..).astype('float32')]. *)
Variable one : float.
(** [struct.unpack('f', ..)] of four bytes. *)
Variable unpack_f : byte → byte → byte → byte → float.
(** The conversion of a Python number to a ctypes [c_float]. *)
Variable c_float : float → float.

(** The arguments of [MLEM_TOF_Reco], in the order of the call, as
    ctypes hands them over ([argtypes]). *)
Record engine_args := EngineArgs {
  arg_niterations : Z;
  arg_TOF : bool;
  arg_TOF_resolution : float;
  arg_img_size_xy : float;
  arg_img_size_z : float;
  arg_img_nvoxels_xy : Z;
  arg_img_nvoxels_z : Z;
  arg_ncoinc : Z;
  arg_lor_x1 : list float;
  arg_lor_y1 : list float;
  arg_lor_z1 : list float;
  arg_lor_t1 : list float;
  arg_lor_x2 : list float;
  arg_lor_y2 : list float;
  arg_lor_z2 : list float;
  arg_lor_t2 : list float;
  arg_smat : list float;
  arg_prefix : string;
  arg_save_every : Z
}.

(** The loaded C library: its one entry point answers with a pointer to
    floats, read by position ([img[i]]). The record stands for a library
    that has the entry point: one that loads without the symbol, for which
    [self.lib.MLEM_TOF_Reco] raises AttributeError once the guards of
    [reconstruct] have passed, is outside it. *)
Record library := Library {
  MLEM_TOF_Reco : engine_args → nat → float
}.

(** [cdll.LoadLibrary(path)]; [None] when the library cannot be loaded. *)
Variable LoadLibrary : string → option library.

(** What the program does that the outside sees, in order. *)
Inductive event :=
| Stdout (line : string)
| Stderr (line : string)
| EngineCall (args : engine_args).

(** A computation: its trace and how it ended. *)
Definition M (A : Type) : Type := list event * outcome A.

#[global] Instance M_ret : MRet M := λ A a, ([], Returned a).

#[global] Instance M_bind : MBind M := λ A B f m,
  match m with
  | (t, Returned a) => let '(t', o) := f a in (t ++ t', o)
  | (t, Exited status) => (t, Exited status)
  | (t, Raised e) => (t, Raised e)
  end.

Definition print (line : string) : M unit := ([Stdout line], Returned tt).
Definition print_stderr (line : string) : M unit := ([Stderr line], Returned tt).
Definition sys_exit {A} (status : Z) : M A := ([], Exited status).
Definition raise {A} (e : exn) : M A := ([], Raised e).

Definition or_raise {A} (e : exn) (o : option A) : M A :=
  match o with Some a => mret a | None => raise e end.

Definition call_MLEM_TOF_Reco (l : library) (args : engine_args)
  : M (nat → float) :=
  ([EngineCall args], Returned (MLEM_TOF_Reco l args)).

(** ** class MLEMReconstructor *)

Record MLEMReconstructor := {
  prefix : string;
  niterations : Z;
  save_every : Z;
  TOF : bool;
  TOF_resolution : float;
  img_size_xy : float;
  img_size_z : float;
  img_nvoxels_xy : nat;
  img_nvoxels_z : nat;
  smatrix : ndarray float;
  lib : library
}.

(** Default values of the constructor's parameters that are not floats. *)
Definition default_prefix : string := "mlem".
Definition default_niterations : Z := 1.
Definition default_save_every : Z := (-1).
Definition default_TOF : bool := true.
Definition default_img_nvoxels_xy : nat := 60.
Definition default_img_nvoxels_z : nat := 60.
Definition default_libpath : string := "lib/libMLEM.so".

(** [MLEMReconstructor.__init__]; [smatrix_arg = None] is Python's
    [smatrix=None]. The voxel counts are natural numbers. *)
Definition __init__ (prefix_arg : string) (niterations_arg : Z)
    (save_every_arg : Z) (TOF_arg : bool) (TOF_resolution_arg : float)
    (img_size_xy_arg img_size_z_arg : float)
    (img_nvoxels_xy_arg img_nvoxels_z_arg : nat)
    (smatrix_arg : option (ndarray float)) (libpath : string)
  : M MLEMReconstructor :=
  self_smatrix ←
    match smatrix_arg with
    | None =>
        print "Sensitivity matrix not specified: assuming a matrix of 1s.";;
        mret (full float32
                [img_nvoxels_xy_arg; img_nvoxels_xy_arg; img_nvoxels_z_arg]
                one)
    | Some s => mret s
    end;
  self_lib ← or_raise OSError (LoadLibrary libpath);
  mret {| prefix := prefix_arg;
          niterations := niterations_arg;
          save_every := save_every_arg;
          TOF := true;
          TOF_resolution := TOF_resolution_arg;
          img_size_xy := img_size_xy_arg;
          img_size_z := img_size_z_arg;
          img_nvoxels_xy := img_nvoxels_xy_arg;
          img_nvoxels_z := img_nvoxels_z_arg;
          smatrix := self_smatrix;
          lib := self_lib |}.

(** [struct.unpack_from('f'*n, fdata)]: [n] floats from the first [4*n]
    bytes; [None] stands for [struct.error] on a buffer that is too
    short. *)
Fixpoint unpack_from (n : nat) (fdata : list byte) : option (list float) :=
  match n with
  | 0 => Some []
  | S n' =>
      match fdata with
      | b0 :: b1 :: b2 :: b3 :: rest =>
          (λ ws, unpack_f b0 b1 b2 b3 :: ws) <$> unpack_from n' rest
      | _ => None
      end
  end.

(** The three index computations of the loop body; [None] stands for the
    ZeroDivisionError of a zero [xdim] or [ydim]. *)
Definition voxel_index (xdim ydim ivox : nat) : option (nat * nat * nat) :=
  if (xdim =? 0)%nat || (ydim =? 0)%nat then None
  else Some (voxel_of xdim ydim ivox).

(** The loop
<<
  for ivox,w in enumerate(s_arr):
      i = int(ivox % xdim)
      j = int(ivox / xdim) % ydim
      k = int(ivox / (xdim*ydim))
      img_arr[i,j,k] = w
>>
    from position [ivox] on. *)
Fixpoint fill_image (xdim ydim ivox : nat) (ws : list float)
    (img_arr : ndarray float) : M (ndarray float) :=
  match ws with
  | [] => mret img_arr
  | w :: ws' =>
      '(i, j, k) ← or_raise ZeroDivisionError (voxel_index xdim ydim ivox);
      img_arr' ← or_raise IndexError (setitem img_arr [i; j; k] w);
      fill_image xdim ydim (S ivox) ws' img_arr'
  end.

(** ["{}{}.raw".format(prefix, niter)] *)
Definition raw_path (prefix : string) (niter : Z) : string :=
  prefix +:+ Py.str_int niter +:+ ".raw".

(** [MLEMReconstructor.read_image] *)
Definition read_image (fs : filesystem) (self : MLEMReconstructor)
    (niter : Z) : M (ndarray float) :=
  let xdim := img_nvoxels_xy self in
  let ydim := img_nvoxels_xy self in
  let zdim := img_nvoxels_z self in
  let img_arr := full float64 [xdim; ydim; zdim] zero in
  let fpath := raw_path (prefix self) niter in
  if path_isfile fs fpath then
    let fdata := file_bytes fs fpath in
    print ("Read " +:+ Py.str_nat (length fdata) +:+ " bytes");;
    let nvoxels := xdim * ydim * zdim in
    if (length fdata =? nvoxels * 4)%nat then
      s_arr ← or_raise StructError (unpack_from nvoxels fdata);
      fill_image xdim ydim 0 s_arr img_arr
    else
      print ("ERROR: unexpected data length " +:+ Py.str_nat (length fdata));;
      mret img_arr
  else
    print ("ERROR: file " +:+ fpath +:+ " not found");;
    mret img_arr.

(** One round of the loop that builds the directory path:
<<
      if p != '':
          folder_path += p
      folder_path += '/'
>> *)
Definition add_folder (folder_path p : string) : string :=
  (if String.eqb p "" then folder_path else folder_path +:+ p) +:+ "/".

(** The directory part of the prefix, as [reconstruct] builds it:
<<
  folders = self.prefix.split('/')
  folder_path = ''
  for p in folders[:-1]:
      ...
>> *)
Definition folder_path_of (prefix : string) : string :=
  foldl add_folder "" (Py.but_last (Py.split "/" prefix)).

(** The test that guards the batch of lines of response:
<<
    ncoinc = len(lor_x1)
    if(len(lor_y1) != ncoinc or len(lor_z1) != ncoinc
       or len(lor_t1) != ncoinc or len(lor_x2) != ncoinc
       or len(lor_y2) != ncoinc or len(lor_z2) != ncoinc
       or len(lor_t2) != ncoinc):
>> *)
Definition lengths_differ
    (lor_x1 lor_y1 lor_z1 lor_t1 lor_x2 lor_y2 lor_z2 lor_t2 : list float)
  : bool :=
  let ncoinc := length lor_x1 in
  negb (length lor_y1 =? ncoinc) || negb (length lor_z1 =? ncoinc)
  || negb (length lor_t1 =? ncoinc) || negb (length lor_x2 =? ncoinc)
  || negb (length lor_y2 =? ncoinc) || negb (length lor_z2 =? ncoinc)
  || negb (length lor_t2 =? ncoinc).

(** The arguments of the call of [MLEM_TOF_Reco]: the C arrays built from
    the batch and from the flattened sensitivity matrix, and the fields of
    [self], each converted as [argtypes] says. *)
Definition marshal (self : MLEMReconstructor)
    (lor_x1 lor_y1 lor_z1 lor_t1 lor_x2 lor_y2 lor_z2 lor_t2 smat : list float)
  : engine_args :=
  {| arg_niterations := Py.c_int (niterations self);
     arg_TOF := TOF self;
     arg_TOF_resolution := c_float (TOF_resolution self);
     arg_img_size_xy := c_float (img_size_xy self);
     arg_img_size_z := c_float (img_size_z self);
     arg_img_nvoxels_xy := Py.c_int (Z.of_nat (img_nvoxels_xy self));
     arg_img_nvoxels_z := Py.c_int (Z.of_nat (img_nvoxels_z self));
     arg_ncoinc := Py.c_int (Z.of_nat (length lor_x1));
     arg_lor_x1 := c_float <$> lor_x1;
     arg_lor_y1 := c_float <$> lor_y1;
     arg_lor_z1 := c_float <$> lor_z1;
     arg_lor_t1 := c_float <$> lor_t1;
     arg_lor_x2 := c_float <$> lor_x2;
     arg_lor_y2 := c_float <$> lor_y2;
     arg_lor_z2 := c_float <$> lor_z2;
     arg_lor_t2 := c_float <$> lor_t2;
     arg_smat := c_float <$> smat;
     arg_prefix := prefix self;
     arg_save_every := Py.c_int (save_every self) |}.

(** [MLEMReconstructor.reconstruct]; the result [None] is Python's
    [None]. *)
Definition reconstruct (fs : filesystem) (self : MLEMReconstructor)
    (lor_x1 lor_y1 lor_z1 lor_t1 lor_x2 lor_y2 lor_z2 lor_t2 : list float)
  : M (option (ndarray float)) :=
  let folder_path := folder_path_of (prefix self) in
  if negb (path_exists fs folder_path) then
    print_stderr ("Path " +:+ folder_path +:+ " doesn't exists - exit job");;
    sys_exit 1
  else
  if lengths_differ lor_x1 lor_y1 lor_z1 lor_t1 lor_x2 lor_y2 lor_z2 lor_t2
  then
    print "ERROR: all LOR arrays must contain the same # of values";;
    mret None
  else
  let xdim := img_nvoxels_xy self in
  let ydim := img_nvoxels_xy self in
  let zdim := img_nvoxels_z self in
  let nvoxels := xdim * ydim * zdim in
  let smat := flatten_F zero (smatrix self) in
  if negb (length smat =? nvoxels)%nat then
    print ("ERROR: sensitivity matrix must have dimensions ["
           +:+ Py.str_nat (img_nvoxels_xy self) +:+ ","
           +:+ Py.str_nat (img_nvoxels_xy self) +:+ ","
           +:+ Py.str_nat (img_nvoxels_z self) +:+ "]");;
    mret None
  else
  let args :=
    marshal self lor_x1 lor_y1 lor_z1 lor_t1 lor_x2 lor_y2 lor_z2 lor_t2 smat in
  img ← call_MLEM_TOF_Reco (lib self) args;
  let img_arr := full float64 [xdim; ydim; zdim] zero in
  let rimg := img <$> seq 0 nvoxels in
  img_arr ← fill_image xdim ydim 0 rimg img_arr;
  mret (Some img_arr).

End MLEM.


Arguments EngineArgs {float}.
Arguments arg_niterations {float} e.
Arguments arg_TOF {float} e.
Arguments arg_TOF_resolution {float} e.
Arguments arg_img_size_xy {float} e.
Arguments arg_img_size_z {float} e.
Arguments arg_img_nvoxels_xy {float} e.
Arguments arg_img_nvoxels_z {float} e.
Arguments arg_ncoinc {float} e.
Arguments arg_lor_x1 {float} e.
Arguments arg_lor_y1 {float} e.
Arguments arg_lor_z1 {float} e.
Arguments arg_lor_t1 {float} e.
Arguments arg_lor_x2 {float} e.
Arguments arg_lor_y2 {float} e.
Arguments arg_lor_z2 {float} e.
Arguments arg_lor_t2 {float} e.
Arguments arg_smat {float} e.
Arguments arg_prefix {float} e.
Arguments arg_save_every {float} e.
Arguments Library {float} MLEM_TOF_Reco.
Arguments MLEM_TOF_Reco {float} l args i.
Arguments Stdout {float} line.
Arguments Stderr {float} line.
Arguments EngineCall {float} args.
Arguments prefix {float} m.
Arguments niterations {float} m.
Arguments save_every {float} m.
Arguments TOF {float} m.
Arguments TOF_resolution {float} m.
Arguments img_size_xy {float} m.
Arguments img_size_z {float} m.
Arguments img_nvoxels_xy {float} m.
Arguments img_nvoxels_z {float} m.
Arguments smatrix {float} m.
Arguments lib {float} m.
Arguments __init__ {float} one LoadLibrary prefix_arg niterations_arg
  save_every_arg TOF_arg TOF_resolution_arg img_size_xy_arg img_size_z_arg
  img_nvoxels_xy_arg img_nvoxels_z_arg smatrix_arg libpath.
Arguments unpack_from {float} unpack_f n fdata.
Arguments fill_image {float} xdim ydim ivox ws img_arr.
Arguments read_image {float} zero unpack_f fs self niter.
Arguments lengths_differ {float}
  lor_x1 lor_y1 lor_z1 lor_t1 lor_x2 lor_y2 lor_z2 lor_t2.
Arguments marshal {float} c_float self
  lor_x1 lor_y1 lor_z1 lor_t1 lor_x2 lor_y2 lor_z2 lor_t2 smat.
Arguments reconstruct {float} zero c_float fs self
  lor_x1 lor_y1 lor_z1 lor_t1 lor_x2 lor_y2 lor_z2 lor_t2.

(** The shape of the voxel grid of a reconstructor, and its voxel count. *)
Definition grid {float} (self : MLEMReconstructor float) : list nat :=
  [img_nvoxels_xy self; img_nvoxels_xy self; img_nvoxels_z self].

Definition nvoxels {float} (self : MLEMReconstructor float) : nat :=
  img_nvoxels_xy self * img_nvoxels_xy self * img_nvoxels_z self.

(** The lines the methods print. *)
Definition smatrix_notice : string :=
  "Sensitivity matrix not specified: assuming a matrix of 1s.".

Definition missing_directory_line (folder_path : string) : string :=
  "Path " +:+ folder_path +:+ " doesn't exists - exit job".

Definition batch_line : string :=
  "ERROR: all LOR arrays must contain the same # of values".

Definition smatrix_line {float} (self : MLEMReconstructor float) : string :=
  "ERROR: sensitivity matrix must have dimensions ["
  +:+ Py.str_nat (img_nvoxels_xy self) +:+ ","
  +:+ Py.str_nat (img_nvoxels_xy self) +:+ ","
  +:+ Py.str_nat (img_nvoxels_z self) +:+ "]".

(** The voxel of a flat position as an index tuple. *)
Definition voxel_tuple (xdim ydim ivox : nat) : list nat :=
  let '(i, j, k) := voxel_of xdim ydim ivox in [i; j; k].

(** A call returns when it hands a value back to its caller. *)
Definition returns {A} (o : outcome A) : Prop :=
  match o with Returned _ => True | _ => False end.

(** The engine was invoked somewhere in a trace. *)
Definition engine_invoked {float} (t : list (event float)) : Prop :=
  ∃ args, EngineCall args ∈ t.

(** A line that starts with "ERROR" was printed somewhere in a trace. *)
Definition error_printed {float} (t : list (event float)) : bool :=
  existsb (λ e, match e with
                | Stdout line => String.prefix "ERROR" line
                | _ => false
                end) t.

(** The eight arrays of a batch of lines of response have one length. *)
Definition same_lengths {A} (x1 y1 z1 t1 x2 y2 z2 t2 : list A) : Prop :=
  length y1 = length x1 ∧ length z1 = length x1 ∧ length t1 = length x1
  ∧ length x2 = length x1 ∧ length y2 = length x1 ∧ length z2 = length x1
  ∧ length t2 = length x1.

(** ** A concrete platform

    Single-precision values by their IEEE bit patterns, read little-endian
    from four bytes; every value being single precision already, the
    conversion to a C float changes nothing. The engine of this platform is
    a stand-in that answers with the sensitivity array it was given. It
    serves to run the model on examples with ordinary values: the passage
    through a Python double, which quiets a signalling NaN, is not part of
    these stand-ins. *)

Module Single.

Definition float : Type := N.

Definition zero : float := 0%N.

Definition one : float := 1065353216%N.

Definition unpack_f (b0 b1 b2 b3 : byte) : float :=
  (Byte.to_N b0 + 256 * (Byte.to_N b1
     + 256 * (Byte.to_N b2 + 256 * Byte.to_N b3)))%N.

Definition c_float (x : float) : float := x.

Definition echo : library float :=
  Library (λ args i, default zero (arg_smat args !! i)).

Definition LoadLibrary (path : string) : option (library float) :=
  if String.eqb path "lib/libMLEM.so" then Some echo else None.

(** A file system with the directory [out/] and, in it, a 3-byte file
    [out/mlem3.raw] and an 8-byte file [out/mlem4.raw]. *)
Definition disk : filesystem := λ p,
  if String.eqb p "out/" then Some Directory
  else if String.eqb p "out/mlem3.raw" then Some (File [x00; x00; x80])
  else if String.eqb p "out/mlem4.raw"
       then Some (File [x00; x00; x80; x3f; x00; x00; x00; x40])
  else None.

(** A file system in which every path is an existing directory. *)
Definition all_dirs : filesystem := λ _, Some Directory.

(** A file system with nothing in it. *)
Definition empty_disk : filesystem := λ _, None.

(** A reconstructor on a grid of [nxy] x [nxy] x [nz] voxels. *)
Definition recon (pre : string) (nxy nz : nat) (s : ndarray float)
  : MLEMReconstructor float :=
  {| prefix := pre; niterations := 1; save_every := (-1); TOF := true;
     TOF_resolution := zero; img_size_xy := zero; img_size_z := zero;
     img_nvoxels_xy := nxy; img_nvoxels_z := nz; smatrix := s;
     lib := echo |}.

End Single.

(** Reconstructors of the concrete platform that the examples run. *)

Module Examples.

Import Single.

(** A reconstructor with prefix [out/mlem] on a grid of one voxel. *)
Definition one_voxel : MLEMReconstructor float :=
  recon "out/mlem" 1 1 (full float32 [1; 1; 1] one).

(** A reconstructor with the default prefix on a grid of two voxels in z. *)
Definition default_named (s : ndarray float) : MLEMReconstructor float :=
  recon default_prefix 1 2 s.

(** A reconstructor with prefix [out/mlem] on a grid of two voxels in z. *)
Definition two_voxels (s : ndarray float) : MLEMReconstructor float :=
  recon "out/mlem" 1 2 s.

(** A sensitivity matrix of shape (1,1,2) holding 1.0 and 2.0, and a
    reconstructor with it on the matching grid. *)
Definition one_two : ndarray float :=
  Ndarray float32 [1; 1; 2] [1065353216%N; 1073741824%N].

Definition ramp : MLEMReconstructor float := two_voxels one_two.

(** A file system that holds the file [out/mlem4.raw] of [disk] and nothing
    else. *)
Definition lone_file : filesystem := λ p,
  if String.eqb p "out/mlem4.raw" then disk p else None.

(** The constructor called with [TOF=False] and the defaults of the other
    parameters on a small grid. *)
Definition built_without_TOF : M float (MLEMReconstructor float) :=
  __init__ one LoadLibrary "out/mlem" default_niterations default_save_every
    false zero zero zero 1 2 None default_libpath.

End Examples.

(** * Properties *)

(** ** Index arithmetic *)

Lemma voxel_of_flat_index nx ny i j k :
  i < nx → j < ny → voxel_of nx ny (flat_index nx ny i j k) = (i, j, k).
Proof.
  intros Hi Hj. unfold voxel_of, flat_index.
  assert (E : i + j * nx + k * nx * ny = nx * (j + k * ny) + i) by lia.
  assert (Hm : (i + j * nx + k * nx * ny) mod nx = i).
  { symmetry. apply (Nat.mod_unique _ _ (j + k * ny)); [exact Hi | exact E]. }
  assert (Hd : (i + j * nx + k * nx * ny) / nx = j + k * ny).
  { symmetry. apply (Nat.div_unique _ _ _ i); [exact Hi | exact E]. }
  rewrite Hm, Hd. f_equal; [f_equal |].
  - symmetry. apply (Nat.mod_unique _ _ k); [exact Hj | lia].
  - symmetry. apply (Nat.div_unique _ _ _ (i + j * nx)); [nia | lia].
Qed.

Lemma flat_index_voxel_of nx ny p :
  0 < nx → 0 < ny →
  let '(i, j, k) := voxel_of nx ny p in flat_index nx ny i j k = p.
Proof.
  intros Hx Hy. unfold voxel_of, flat_index.
  rewrite <- Nat.Div0.div_div.
  pose proof (Nat.div_mod_eq p nx) as E1.
  pose proof (Nat.div_mod_eq (p / nx) ny) as E2.
  nia.
Qed.

Lemma voxel_of_bounds nx ny nz p :
  p < nx * ny * nz →
  let '(i, j, k) := voxel_of nx ny p in i < nx ∧ j < ny ∧ k < nz.
Proof.
  intros Hp. unfold voxel_of.
  assert (0 < nx) by (destruct nx; simpl in Hp; lia).
  assert (0 < ny) by (destruct ny; [rewrite Nat.mul_0_r in Hp; simpl in Hp|]; lia).
  split; [apply Nat.mod_upper_bound; lia |].
  split; [apply Nat.mod_upper_bound; lia |].
  apply Nat.Div0.div_lt_upper_bound. lia.
Qed.

Lemma flat_index_bound nx ny nz i j k :
  i < nx → j < ny → k < nz → flat_index nx ny i j k < nx * ny * nz.
Proof.
  intros Hi Hj Hk. unfold flat_index.
  assert (j * nx + nx ≤ ny * nx) by nia.
  assert (k * (nx * ny) + nx * ny ≤ nz * (nx * ny)) by nia.
  lia.
Qed.

(** Row-major offsets of a three-axis array. *)
Lemma c_offset_3 nx ny nz i j k :
  c_offset 0 [nx; ny; nz] [i; j; k] = (i * ny + j) * nz + k.
Proof. reflexivity. Qed.

Lemma c_offset_3_bound nx ny nz i j k :
  i < nx → j < ny → k < nz → (i * ny + j) * nz + k < nx * ny * nz.
Proof.
  intros Hi Hj Hk.
  assert (i * ny + ny ≤ nx * ny) by nia.
  assert ((i * ny + j) * nz + nz ≤ (nx * ny) * nz) by nia.
  lia.
Qed.

Lemma c_offset_3_inj ny nz i j k i' j' k' :
  j < ny → k < nz → j' < ny → k' < nz →
  (i * ny + j) * nz + k = (i' * ny + j') * nz + k' →
  i = i' ∧ j = j' ∧ k = k'.
Proof.
  intros Hj Hk Hj' Hk' E.
  assert (Hq : i * ny + j = i' * ny + j' ∧ k = k').
  { apply (Nat.div_mod_unique nz); [lia | lia | nia]. }
  destruct Hq as [Hq ->].
  assert (i = i' ∧ j = j') by (apply (Nat.div_mod_unique ny); [lia | lia | nia]).
  tauto.
Qed.

Lemma in_bounds_3 nx ny nz i j k :
  in_bounds [nx; ny; nz] [i; j; k] = true ↔ i < nx ∧ j < ny ∧ k < nz.
Proof.
  simpl. rewrite !andb_true_iff, !Nat.ltb_lt. tauto.
Qed.

(** ** Arrays *)

Section ArrayFacts.

Context {A : Type}.
Implicit Types (a : ndarray A) (v w : A).

Lemma getitem_3 a nx ny nz i j k :
  shape a = [nx; ny; nz] → i < nx → j < ny → k < nz →
  getitem a [i; j; k] = data a !! ((i * ny + j) * nz + k).
Proof.
  intros Hs Hi Hj Hk. unfold getitem. rewrite Hs.
  assert (Hb : in_bounds [nx; ny; nz] [i; j; k] = true)
    by (apply in_bounds_3; auto).
  rewrite Hb. reflexivity.
Qed.

Lemma getitem_3_Some a nx ny nz i j k :
  shape a = [nx; ny; nz] → well_formed a → i < nx → j < ny → k < nz →
  ∃ v, getitem a [i; j; k] = Some v.
Proof.
  intros Hs Hwf Hi Hj Hk. rewrite (getitem_3 a nx ny nz) by assumption.
  apply lookup_lt_is_Some_2. rewrite Hwf. unfold size. rewrite Hs. simpl.
  pose proof (c_offset_3_bound nx ny nz i j k Hi Hj Hk). lia.
Qed.

Lemma size_of_3 nx ny nz : size_of [nx; ny; nz] = nx * ny * nz.
Proof. simpl. lia. Qed.

Lemma full_well_formed t sh v : well_formed (full t sh v).
Proof. unfold well_formed, full, size. simpl. apply length_replicate. Qed.

Lemma getitem_full t nx ny nz v i j k :
  i < nx → j < ny → k < nz →
  getitem (full t [nx; ny; nz] v) [i; j; k] = Some v.
Proof.
  intros Hi Hj Hk.
  rewrite (getitem_3 _ nx ny nz) by (assumption || reflexivity).
  unfold full. cbn [data]. apply lookup_replicate_2. rewrite size_of_3.
  apply c_offset_3_bound; assumption.
Qed.

Lemma length_flatten_F v a : length (flatten_F v a) = size a.
Proof. unfold flatten_F. rewrite length_fmap. apply length_seq. Qed.

Lemma unravel_F_flat_index nx ny nz i j k :
  i < nx → j < ny → k < nz →
  unravel_F [nx; ny; nz] (flat_index nx ny i j k) = [i; j; k].
Proof.
  intros Hi Hj Hk.
  pose proof (voxel_of_flat_index nx ny i j k Hi Hj) as E.
  unfold voxel_of in E. injection E as E1 E2 E3. cbn [unravel_F].
  rewrite E1, E2. rewrite Nat.Div0.div_div, E3.
  rewrite (Nat.mod_small k nz Hk). reflexivity.
Qed.

(** Position [i + j*nx + k*nx*ny] of the column-major flattening of a
    three-axis array holds element [(i,j,k)]. *)
Lemma flatten_F_lookup fallback a nx ny nz i j k :
  shape a = [nx; ny; nz] → well_formed a → i < nx → j < ny → k < nz →
  flatten_F fallback a !! flat_index nx ny i j k = getitem a [i; j; k].
Proof.
  intros Hs Hwf Hi Hj Hk.
  destruct (getitem_3_Some a nx ny nz i j k Hs Hwf Hi Hj Hk) as [v Hv].
  unfold flatten_F. rewrite list_lookup_fmap.
  rewrite lookup_seq_lt.
  - simpl. rewrite Hs, unravel_F_flat_index by assumption.
    rewrite Hv. reflexivity.
  - unfold size. rewrite Hs, size_of_3. apply flat_index_bound; assumption.
Qed.

End ArrayFacts.

(** ** Strings *)

Lemma append_nil_r s : s +:+ "" = s.
Proof.
  induction s as [|c s IH]; [reflexivity |].
  change (String c (s +:+ "") = String c s). f_equal. exact IH.
Qed.

Lemma append_assoc s1 s2 s3 : (s1 +:+ s2) +:+ s3 = s1 +:+ (s2 +:+ s3).
Proof.
  induction s1 as [|c s1 IH]; [reflexivity |].
  change (String c ((s1 +:+ s2) +:+ s3) = String c (s1 +:+ (s2 +:+ s3))).
  f_equal. exact IH.
Qed.

Lemma split_nonempty sep s : ∃ piece pieces, Py.split sep s = piece :: pieces.
Proof.
  destruct s as [|c s]; simpl; [eauto |].
  destruct (Ascii.eqb c sep); [eauto |].
  destruct (Py.split sep s); eauto.
Qed.

(** A string without the separator is its own single piece. *)
Lemma split_without_sep sep s :
  Py.occurs sep s = false → Py.split sep s = [s].
Proof.
  induction s as [|c s IH]; simpl; [reflexivity |].
  intros H. apply orb_false_iff in H as [Hc Hs].
  rewrite Hc, (IH Hs). reflexivity.
Qed.

Lemma folder_path_of_without_slash s :
  Py.occurs "/" s = false → folder_path_of s = "".
Proof.
  intros H. unfold folder_path_of. rewrite (split_without_sep _ _ H).
  reflexivity.
Qed.

Lemma but_last_cons {A} (x y : A) l :
  Py.but_last (x :: y :: l) = x :: Py.but_last (y :: l).
Proof. reflexivity. Qed.

Lemma add_folder_eq folder_path p :
  add_folder folder_path p = folder_path +:+ (p +:+ "/").
Proof.
  unfold add_folder. destruct (String.eqb_spec p "") as [-> | _].
  - reflexivity.
  - apply append_assoc.
Qed.

Lemma foldl_add_folder l : ∀ acc,
  foldl add_folder acc l = acc +:+ foldl add_folder "" l.
Proof.
  induction l as [|p l IH]; intros acc; simpl.
  - symmetry. apply append_nil_r.
  - rewrite (IH (add_folder acc p)), (IH (add_folder "" p)).
    rewrite <- append_assoc. f_equal. rewrite !add_folder_eq. reflexivity.
Qed.

(** A string holds no slash, or it is a part that ends in its last slash
    followed by a slash-free rest. *)
Lemma last_slash_split s :
  Py.occurs "/" s = false
  ∨ ∃ d name, Py.occurs "/" name = false ∧ s = d +:+ "/" +:+ name.
Proof.
  induction s as [|c s [Hfree | (d & name & Hname & ->)]].
  - left. reflexivity.
  - destruct (Ascii.eqb_spec c "/") as [-> | Hc].
    + right. exists "", s. split; [exact Hfree | reflexivity].
    + left. simpl. apply Ascii.eqb_neq in Hc. rewrite Hc. exact Hfree.
  - right. exists (String c d), name. split; [exact Hname | reflexivity].
Qed.

(** For a prefix [d/name] whose [name] holds no slash, the loop builds
    [d/]. *)
Lemma folder_path_of_with_slash d name :
  Py.occurs "/" name = false →
  folder_path_of (d +:+ "/" +:+ name) = d +:+ "/".
Proof.
  intros Hname. unfold folder_path_of.
  induction d as [|c d IH].
  - change ("" +:+ "/" +:+ name) with (String "/" name).
    cbn [Py.split]. rewrite (split_without_sep _ _ Hname). reflexivity.
  - change (String c d +:+ "/" +:+ name) with (String c (d +:+ "/" +:+ name)).
    destruct (split_nonempty "/" (d +:+ "/" +:+ name))
      as (piece & pieces & Hsplit).
    cbn [Py.split]. rewrite Hsplit in *.
    destruct (Ascii.eqb_spec c "/") as [-> | Hc].
    + rewrite but_last_cons.
      change (foldl add_folder "" ("" :: Py.but_last (piece :: pieces)))
        with (foldl add_folder "/" (Py.but_last (piece :: pieces))).
      rewrite foldl_add_folder, IH. reflexivity.
    + destruct pieces as [|q qs].
      * change ("" = d +:+ "/") in IH. destruct d; discriminate IH.
      * rewrite but_last_cons in *.
        change (foldl add_folder "" (String c piece :: Py.but_last (q :: qs)))
          with (foldl add_folder (add_folder "" (String c piece))
                  (Py.but_last (q :: qs))).
        change (foldl add_folder "" (piece :: Py.but_last (q :: qs)))
          with (foldl add_folder (add_folder "" piece) (Py.but_last (q :: qs)))
          in IH.
        rewrite foldl_add_folder, add_folder_eq.
        rewrite foldl_add_folder, add_folder_eq in IH.
        change (String c d +:+ "/") with (String c (d +:+ "/")).
        rewrite <- IH. reflexivity.
Qed.

(** The directory path that [reconstruct] tests is the prefix up to and
    including its last slash: it is empty for a prefix without a slash, it
    is [d/] for a prefix [d/name] whose [name] holds no slash, and so every
    prefix is that path, which is empty or ends in a slash, followed by a
    slash-free file-name stem. *)
Theorem folder_path_of_spec :
  (∀ name, Py.occurs "/" name = false → folder_path_of name = "")
  ∧ (∀ d name, Py.occurs "/" name = false →
       folder_path_of (d +:+ "/" +:+ name) = d +:+ "/")
  ∧ (∀ s, ∃ name,
       Py.occurs "/" name = false
       ∧ s = folder_path_of s +:+ name
       ∧ (folder_path_of s = "" ∨ ∃ d, folder_path_of s = d +:+ "/")).
Proof.
  split; [exact folder_path_of_without_slash |].
  split; [exact folder_path_of_with_slash |].
  intros s. destruct (last_slash_split s) as [Hfree | (d & name & Hname & ->)].
  - exists s. rewrite (folder_path_of_without_slash s Hfree).
    split; [exact Hfree |]. split; [reflexivity | left; reflexivity].
  - exists name. rewrite (folder_path_of_with_slash d name Hname).
    split; [exact Hname |]. split; [| right; exists d; reflexivity].
    symmetry. apply append_assoc.
Qed.

(** ** The monad of traces *)

Section MonadFacts.

Context {float : Type}.

Lemma bind_ret {A B} (a : A) (f : A → M float B) : mret a ≫= f = f a.
Proof. unfold mret, mbind, M_ret, M_bind. destruct (f a). reflexivity. Qed.

Lemma bind_or_raise_Some {A B} e (a : A) (f : A → M float B) :
  or_raise float e (Some a) ≫= f = f a.
Proof. apply bind_ret. Qed.

Lemma bind_print {B} line (k : M float B) :
  (print float line;; k) = (Stdout line :: k.1, k.2).
Proof. unfold print, mbind, M_bind. destruct k. reflexivity. Qed.

Lemma bind_print_stderr {B} line (k : M float B) :
  (print_stderr float line;; k) = (Stderr line :: k.1, k.2).
Proof. unfold print_stderr, mbind, M_bind. destruct k. reflexivity. Qed.

End MonadFacts.

(** ** The methods *)

Section ProgramFacts.

Variable float : Type.
Variable zero one : float.
Variable unpack_f : byte → byte → byte → byte → float.
Variable c_float : float → float.
Variable LoadLibrary : string → option (library float).

Implicit Types (self : MLEMReconstructor float) (fs : filesystem).
Implicit Types (img : ndarray float) (ws : list float).

Lemma unpack_from_length n : ∀ fdata,
  length fdata = n * 4 →
  ∃ ws, unpack_from unpack_f n fdata = Some ws ∧ length ws = n.
Proof.
  induction n as [|n IH]; intros fdata Hlen.
  - exists []. split; reflexivity.
  - destruct fdata as [|b0 [|b1 [|b2 [|b3 rest]]]]; simpl in Hlen; try lia.
    destruct (IH rest) as (ws & Hws & Hl); [lia |].
    exists (unpack_f b0 b1 b2 b3 :: ws). simpl. rewrite Hws.
    split; [reflexivity | simpl; lia].
Qed.

Lemma voxel_index_Some nx ny nz p :
  p < nx * ny * nz → voxel_index nx ny p = Some (voxel_of nx ny p).
Proof.
  intros Hp. unfold voxel_index.
  destruct nx; [simpl in Hp; lia |].
  destruct ny; [rewrite Nat.mul_0_r in Hp; simpl in Hp; lia |].
  reflexivity.
Qed.

(** Distinct flat positions are written to distinct places of the array. *)
Lemma voxel_offset_inj nx ny nz p q i j k i' j' k' :
  p < nx * ny * nz → q < nx * ny * nz →
  voxel_of nx ny p = (i, j, k) → voxel_of nx ny q = (i', j', k') →
  (i * ny + j) * nz + k = (i' * ny + j') * nz + k' → p = q.
Proof.
  intros Hp Hq Ep Eq E.
  pose proof (voxel_of_bounds nx ny nz p Hp) as Bp. rewrite Ep in Bp.
  pose proof (voxel_of_bounds nx ny nz q Hq) as Bq. rewrite Eq in Bq.
  destruct (c_offset_3_inj ny nz i j k i' j' k') as (-> & -> & ->);
    [tauto | tauto | tauto | tauto | exact E |].
  assert (0 < nx ∧ 0 < ny) as [Hx Hy] by lia.
  pose proof (flat_index_voxel_of nx ny p Hx Hy) as Fp. rewrite Ep in Fp.
  pose proof (flat_index_voxel_of nx ny q Hx Hy) as Fq. rewrite Eq in Fq.
  congruence.
Qed.

(** The loop that fills the image: from position [p0] on it stores each
    value at the voxel of its position, raises nothing, prints nothing and
    leaves every other voxel as it was. *)
Lemma fill_image_spec nx ny nz ws : ∀ p0 img,
  shape img = [nx; ny; nz] → well_formed img →
  p0 + length ws ≤ nx * ny * nz →
  ∃ img', fill_image nx ny p0 ws img = ([], Returned img')
    ∧ shape img' = [nx; ny; nz] ∧ arr_dtype img' = arr_dtype img
    ∧ well_formed img'
    ∧ ∀ p, p < nx * ny * nz →
        getitem img' (voxel_tuple nx ny p) =
          if decide (p0 ≤ p < p0 + length ws) then ws !! (p - p0)
          else getitem img (voxel_tuple nx ny p).
Proof.
  induction ws as [|w ws IH]; intros p0 img Hs Hwf Hlen.
  - exists img. repeat split; try assumption.
    intros p Hp. simpl. case_decide; [lia | reflexivity].
  - simpl in Hlen. assert (Hp0 : p0 < nx * ny * nz) by lia.
    cbn [fill_image].
    rewrite (voxel_index_Some nx ny nz p0 Hp0), bind_or_raise_Some.
    pose proof (voxel_of_bounds nx ny nz p0 Hp0) as B0.
    destruct (voxel_of nx ny p0) as [[i j] k] eqn:E0.
    destruct B0 as (Hi & Hj & Hk).
    assert (Hb : in_bounds [nx; ny; nz] [i; j; k] = true)
      by (apply in_bounds_3; auto).
    unfold setitem. rewrite Hs, Hb, bind_or_raise_Some, c_offset_3.
    set (img1 := Ndarray (arr_dtype img) [nx; ny; nz]
                   (<[(i * ny + j) * nz + k := w]> (data img))).
    assert (Hwf1 : well_formed img1).
    { unfold well_formed, size in *. subst img1. cbn [data shape].
      rewrite length_insert, Hwf, Hs. reflexivity. }
    destruct (IH (S p0) img1 eq_refl Hwf1) as (img' & Hrun & Hs' & Hd' & Hwf' & Hget);
      [lia |].
    exists img'. repeat split; try assumption.
    intros p Hp. rewrite (Hget p Hp).
    pose proof (voxel_of_bounds nx ny nz p Hp) as B.
    unfold voxel_tuple. destruct (voxel_of nx ny p) as [[i' j'] k'] eqn:E.
    destruct B as (Hi' & Hj' & Hk').
    rewrite (getitem_3 img1 nx ny nz), (getitem_3 img nx ny nz)
      by (assumption || reflexivity).
    subst img1. cbn [data length].
    assert (Hoff : (i * ny + j) * nz + k < length (data img)).
    { rewrite Hwf. unfold size. rewrite Hs, size_of_3.
      apply c_offset_3_bound; assumption. }
    destruct (decide (p = p0)) as [-> | Hne].
    + rewrite E0 in E. injection E as <- <- <-.
      rewrite list_lookup_insert_eq by exact Hoff.
      repeat case_decide; try lia.
      replace (p0 - p0) with 0 by lia. reflexivity.
    + rewrite list_lookup_insert_ne.
      * repeat case_decide; try lia; [| reflexivity].
        replace (p - p0) with (S (p - S p0)) by lia. reflexivity.
      * intros Eoff. apply Hne. symmetry.
        exact (voxel_offset_inj nx ny nz p0 p i j k i' j' k' Hp0 Hp E0 E Eoff).
Qed.


(** *** read_image *)

(** What [read_image] does on a file of the right length: it prints the
    byte count, unpacks the floats and fills the image with them. *)
Lemma read_image_right_length fs self niter :
  path_isfile fs (raw_path (prefix self) niter) = true →
  length (file_bytes fs (raw_path (prefix self) niter)) = nvoxels self * 4 →
  ∃ s_arr img,
    unpack_from unpack_f (nvoxels self)
      (file_bytes fs (raw_path (prefix self) niter)) = Some s_arr
    ∧ length s_arr = nvoxels self
    ∧ read_image zero unpack_f fs self niter =
        ([Stdout ("Read " +:+ Py.str_nat (nvoxels self * 4) +:+ " bytes")],
         Returned img)
    ∧ shape img = grid self ∧ arr_dtype img = float64 ∧ well_formed img
    ∧ ∀ p, p < nvoxels self →
        getitem img (voxel_tuple (img_nvoxels_xy self) (img_nvoxels_xy self) p)
        = s_arr !! p.
Proof.
  intros Hfile Hlen.
  destruct (unpack_from_length (nvoxels self) _ Hlen) as (s_arr & Hun & Hl).
  destruct (fill_image_spec (img_nvoxels_xy self) (img_nvoxels_xy self)
              (img_nvoxels_z self) s_arr 0
              (full float64 (grid self) zero) eq_refl
              (full_well_formed _ _ _))
    as (img & Hrun & Hs & Hd & Hwf & Hget).
  { rewrite Hl. unfold nvoxels. lia. }
  exists s_arr, img. split; [exact Hun |]. split; [exact Hl |].
  split; [| split; [exact Hs | split; [exact Hd | split; [exact Hwf |]]]].
  - unfold read_image. rewrite Hfile, bind_print.
    fold (nvoxels self). rewrite Hlen, Nat.eqb_refl.
    rewrite Hun, bind_or_raise_Some. fold (grid self).
    rewrite Hrun. reflexivity.
  - intros p Hp. rewrite (Hget p Hp). rewrite Hl.
    case_decide; [| unfold nvoxels in *; lia].
    rewrite Nat.sub_0_r. reflexivity.
Qed.

(** On a file of another length [read_image] prints the byte count and an
    error line, and returns the image it started from. *)
Lemma read_image_unexpected_length fs self niter :
  path_isfile fs (raw_path (prefix self) niter) = true →
  length (file_bytes fs (raw_path (prefix self) niter)) ≠ nvoxels self * 4 →
  read_image zero unpack_f fs self niter =
    ([Stdout ("Read "
              +:+ Py.str_nat (length (file_bytes fs (raw_path (prefix self) niter)))
              +:+ " bytes");
      Stdout ("ERROR: unexpected data length "
              +:+ Py.str_nat (length (file_bytes fs (raw_path (prefix self) niter))))],
     Returned (full float64 (grid self) zero)).
Proof.
  intros Hfile Hlen. unfold read_image. rewrite Hfile, bind_print.
  fold (nvoxels self).
  destruct (Nat.eqb_spec (length (file_bytes fs (raw_path (prefix self) niter)))
              (nvoxels self * 4)) as [E | _]; [contradiction |].
  reflexivity.
Qed.

(** When there is no such file, [read_image] prints that it was not found
    and returns the all-zeros array. *)
Lemma read_image_absent fs self niter :
  path_isfile fs (raw_path (prefix self) niter) = false →
  read_image zero unpack_f fs self niter =
    ([Stdout ("ERROR: file " +:+ raw_path (prefix self) niter +:+ " not found")],
     Returned (full float64 (grid self) zero)).
Proof. intros Hfile. unfold read_image. rewrite Hfile. reflexivity. Qed.




(** C2 (amended): when the file [{prefix}{niter}.raw] exists and its byte
    length differs from [img_nvoxels_xy*img_nvoxels_xy*img_nvoxels_z*4],
    [read_image] prints the number of bytes read and the line
    "ERROR: unexpected data length n", and returns to its caller the
    all-zeros array of the grid's shape, every voxel of which reads 0.0: no
    value of the file is stored in it, and no error is signalled. *)
Theorem read_image_wrong_length fs self niter :
  path_isfile fs (raw_path (prefix self) niter) = true →
  length (file_bytes fs (raw_path (prefix self) niter)) ≠ nvoxels self * 4 →
  ∃ img,
    read_image zero unpack_f fs self niter =
      ([Stdout ("Read "
                +:+ Py.str_nat (length (file_bytes fs (raw_path (prefix self) niter)))
                +:+ " bytes");
        Stdout ("ERROR: unexpected data length "
                +:+ Py.str_nat (length (file_bytes fs (raw_path (prefix self) niter))))],
       Returned img)
    ∧ shape img = grid self
    ∧ ∀ i j k, i < img_nvoxels_xy self → j < img_nvoxels_xy self →
        k < img_nvoxels_z self → getitem img [i; j; k] = Some zero.
Proof.
  intros Hfile Hlen. exists (full float64 (grid self) zero).
  split; [apply read_image_unexpected_length; assumption |].
  split; [reflexivity |].
  intros i j k Hi Hj Hk. apply getitem_full; assumption.
Qed.

(** *** reconstruct *)

Lemma lengths_differ_false (x1 y1 z1 t1 x2 y2 z2 t2 : list float) :
  lengths_differ x1 y1 z1 t1 x2 y2 z2 t2 = false
  ↔ same_lengths x1 y1 z1 t1 x2 y2 z2 t2.
Proof.
  unfold lengths_differ, same_lengths.
  rewrite !orb_false_iff, !negb_false_iff, !Nat.eqb_eq. tauto.
Qed.

Lemma lengths_differ_true (x1 y1 z1 t1 x2 y2 z2 t2 : list float) :
  ¬ same_lengths x1 y1 z1 t1 x2 y2 z2 t2 →
  lengths_differ x1 y1 z1 t1 x2 y2 z2 t2 = true.
Proof.
  intros Hn. apply not_false_iff_true. intros Hf. apply Hn.
  apply lengths_differ_false. exact Hf.
Qed.

Section Reconstruct.

Variables (fs : filesystem) (self : MLEMReconstructor float).
Variables (x1 y1 z1 t1 x2 y2 z2 t2 : list float).

Local Abbreviation run := (reconstruct zero c_float fs self x1 y1 z1 t1 x2 y2 z2 t2).
Local Abbreviation args :=
  (marshal c_float self x1 y1 z1 t1 x2 y2 z2 t2 (flatten_F zero (smatrix self))).

(** First guard: the directory of the prefix. *)
Lemma reconstruct_exits :
  path_exists fs (folder_path_of (prefix self)) = false →
  run = ([Stderr (missing_directory_line (folder_path_of (prefix self)))],
         Exited 1%Z).
Proof. intros Hdir. unfold reconstruct. rewrite Hdir. reflexivity. Qed.

(** Second guard: the lengths of the batch. *)
Lemma reconstruct_rejects_batch :
  path_exists fs (folder_path_of (prefix self)) = true →
  lengths_differ x1 y1 z1 t1 x2 y2 z2 t2 = true →
  run = ([Stdout batch_line],
         Returned None).
Proof. intros Hdir Hlen. unfold reconstruct. rewrite Hdir, Hlen. reflexivity. Qed.

(** Third guard: the number of elements of the sensitivity matrix. *)
Lemma reconstruct_rejects_smatrix :
  path_exists fs (folder_path_of (prefix self)) = true →
  lengths_differ x1 y1 z1 t1 x2 y2 z2 t2 = false →
  size (smatrix self) ≠ nvoxels self →
  run = ([Stdout (smatrix_line self)], Returned None).
Proof.
  intros Hdir Hlen Hsize. unfold reconstruct.
  rewrite Hdir, Hlen, length_flatten_F. cbn [negb].
  fold (nvoxels self).
  destruct (Nat.eqb_spec (size (smatrix self)) (nvoxels self)) as [E | _];
    [contradiction | reflexivity].
Qed.

(** Past the three guards the engine is called once, and the image handed
    back holds, at the voxel of each flat position, the float the engine's
    answer has at that position. *)
Lemma reconstruct_runs :
  path_exists fs (folder_path_of (prefix self)) = true →
  lengths_differ x1 y1 z1 t1 x2 y2 z2 t2 = false →
  size (smatrix self) = nvoxels self →
  ∃ img,
    run = ([EngineCall args], Returned (Some img))
    ∧ shape img = grid self ∧ well_formed img
    ∧ ∀ p, p < nvoxels self →
        getitem img (voxel_tuple (img_nvoxels_xy self) (img_nvoxels_xy self) p)
        = Some (MLEM_TOF_Reco (lib self) args p).
Proof.
  intros Hdir Hlen Hsize.
  destruct (fill_image_spec (img_nvoxels_xy self) (img_nvoxels_xy self)
              (img_nvoxels_z self)
              (MLEM_TOF_Reco (lib self) args <$> seq 0 (nvoxels self)) 0
              (full float64 (grid self) zero) eq_refl
              (full_well_formed _ _ _))
    as (img & Hrun & Hs & _ & Hwf & Hget).
  { rewrite length_fmap, length_seq. unfold nvoxels. lia. }
  exists img. split; [| split; [exact Hs | split; [exact Hwf |]]].
  - unfold reconstruct.
    rewrite Hdir, Hlen, length_flatten_F. cbn [negb].
    fold (nvoxels self). rewrite Hsize, Nat.eqb_refl. cbn [negb].
    unfold call_MLEM_TOF_Reco. fold (grid self).
    unfold mbind at 1. unfold M_bind at 1.
    rewrite Hrun. reflexivity.
  - intros p Hp. rewrite (Hget p Hp), length_fmap, length_seq.
    case_decide; [| lia].
    rewrite Nat.sub_0_r, list_lookup_fmap, lookup_seq_lt by exact Hp.
    reflexivity.
Qed.

Ltac no_engine_call :=
  let a := fresh "a" in
  let H := fresh "H" in
  intros [a H];
  repeat (apply elem_of_cons in H as [H | H]; [discriminate H |]);
  apply elem_of_nil in H; exact H.

(** C3 (amended): when the directory part of the prefix (the prefix up to
    and including its last slash) does not exist, [reconstruct] writes
    "Path <dir> doesn't exists - exit job" to stderr and ends the process
    with [sys.exit(1)]: no value reaches the caller, nothing is created,
    and neither a check of the batch nor a call of the engine has taken
    place. *)
Theorem reconstruct_missing_directory :
  path_exists fs (folder_path_of (prefix self)) = false →
  run = ([Stderr (missing_directory_line (folder_path_of (prefix self)))],
         Exited 1%Z)
  ∧ ¬ returns run.2 ∧ ¬ engine_invoked run.1.
Proof.
  intros Hdir. rewrite (reconstruct_exits Hdir). cbn [fst snd].
  split; [reflexivity |]. split; [intros [] | no_engine_call].
Qed.

(** C9: with a prefix that holds no slash (the default "mlem" is one), the
    directory path is the empty string, which never exists: [reconstruct]
    ends the process with status 1, whatever the file system holds, before
    it looks at the batch or calls the engine. *)
Theorem reconstruct_prefix_without_slash :
  Py.occurs "/" (prefix self) = false →
  run = ([Stderr "Path  doesn't exists - exit job"], Exited 1%Z).
Proof.
  intros Hslash.
  pose proof (folder_path_of_without_slash _ Hslash) as Hfolder.
  rewrite reconstruct_exits; rewrite Hfolder; reflexivity.
Qed.

(** C4 (amended): for a batch whose eight arrays do not all have the same
    length, the engine is never invoked; when the directory of the prefix
    exists, [reconstruct] prints "ERROR: all LOR arrays must contain the
    same # of values" and returns [None]; when it does not exist, the
    process has ended with status 1 before the lengths were compared. *)
Theorem reconstruct_mismatched_batch :
  ¬ same_lengths x1 y1 z1 t1 x2 y2 z2 t2 →
  ¬ engine_invoked run.1
  ∧ (path_exists fs (folder_path_of (prefix self)) = true →
     run = ([Stdout batch_line],
            Returned None))
  ∧ (path_exists fs (folder_path_of (prefix self)) = false →
     run.2 = Exited 1%Z).
Proof.
  intros Hbatch. apply lengths_differ_true in Hbatch.
  destruct (path_exists fs (folder_path_of (prefix self))) eqn:Hdir.
  - rewrite (reconstruct_rejects_batch Hdir Hbatch). cbn [fst snd].
    split; [no_engine_call |]. split; [reflexivity | discriminate].
  - rewrite (reconstruct_exits Hdir). cbn [fst snd].
    split; [no_engine_call |]. split; [discriminate | reflexivity].
Qed.

(** What the guard of the sensitivity matrix does catch: for a matrix whose
    number of elements differs from
    [img_nvoxels_xy*img_nvoxels_xy*img_nvoxels_z], the engine is never
    invoked; when the directory of the prefix exists and the arrays of the
    batch have one length, [reconstruct] prints "ERROR: sensitivity matrix
    must have dimensions [nxy,nxy,nz]" and returns [None]. *)
Theorem reconstruct_smatrix_wrong_size :
  size (smatrix self) ≠ nvoxels self →
  ¬ engine_invoked run.1
  ∧ (path_exists fs (folder_path_of (prefix self)) = true →
     same_lengths x1 y1 z1 t1 x2 y2 z2 t2 →
     run = ([Stdout (smatrix_line self)], Returned None)).
Proof.
  intros Hsize.
  destruct (path_exists fs (folder_path_of (prefix self))) eqn:Hdir.
  - destruct (lengths_differ x1 y1 z1 t1 x2 y2 z2 t2) eqn:Hlen.
    + rewrite (reconstruct_rejects_batch Hdir Hlen). cbn [fst].
      split; [no_engine_call |]. intros _ Hsame.
      apply lengths_differ_false in Hsame. congruence.
    + rewrite (reconstruct_rejects_smatrix Hdir Hlen Hsize). cbn [fst].
      split; [no_engine_call | reflexivity].
  - rewrite (reconstruct_exits Hdir). cbn [fst].
    split; [no_engine_call | discriminate].
Qed.

(** C7: the sensitivity matrix reaches the engine x fastest: for a matrix
    of shape (nx, ny, nz) that passes the guards and every in-range
    (i,j,k), element [i + j*nx + k*nx*ny] of the array handed to the engine
    is [smatrix[i,j,k]] (as the C float it is converted to). *)
Theorem smatrix_handed_over_x_fastest nx ny nz i j k :
  path_exists fs (folder_path_of (prefix self)) = true →
  same_lengths x1 y1 z1 t1 x2 y2 z2 t2 →
  well_formed (smatrix self) →
  shape (smatrix self) = [nx; ny; nz] →
  nx * ny * nz = nvoxels self →
  i < nx → j < ny → k < nz →
  ∃ v, run.1 = [EngineCall args]
    ∧ getitem (smatrix self) [i; j; k] = Some v
    ∧ arg_smat args !! flat_index nx ny i j k = Some (c_float v).
Proof.
  intros Hdir Hsame Hwf Hshape Hsize Hi Hj Hk.
  apply lengths_differ_false in Hsame.
  assert (Hsz : size (smatrix self) = nvoxels self).
  { unfold size. rewrite Hshape, size_of_3. exact Hsize. }
  destruct (reconstruct_runs Hdir Hsame Hsz) as (img & Hrun & _).
  destruct (getitem_3_Some (smatrix self) nx ny nz i j k Hshape Hwf Hi Hj Hk)
    as [v Hv].
  exists v. rewrite Hrun. split; [reflexivity |]. split; [exact Hv |].
  cbn [marshal arg_smat]. rewrite list_lookup_fmap.
  rewrite (flatten_F_lookup zero (smatrix self) nx ny nz) by assumption.
  rewrite Hv. reflexivity.
Qed.

End Reconstruct.

(** *** The flat index and the voxel it names *)

Lemma voxel_tuple_flat_index nx ny i j k :
  i < nx → j < ny → voxel_tuple nx ny (flat_index nx ny i j k) = [i; j; k].
Proof.
  intros Hi Hj. unfold voxel_tuple.
  rewrite (voxel_of_flat_index nx ny i j k Hi Hj). reflexivity.
Qed.

(** C6: the flat index and the index computation of the two loops are
    inverse to each other on the grid: for 0 <= i < nx, 0 <= j < ny,
    0 <= k < nz the position ivox = i + j*nx + k*nx*ny lies in the image
    and the loop body computes (i, j, k) from it; hence [read_image] stores
    float ivox of the file, and [reconstruct] float ivox of the engine's
    answer, at voxel (i, j, k) of the image they return. *)
Theorem flat_index_round_trip :
  (∀ nx ny nz i j k, i < nx → j < ny → k < nz →
     flat_index nx ny i j k < nx * ny * nz
     ∧ voxel_index nx ny (flat_index nx ny i j k) = Some (i, j, k))
  ∧ (∀ fs self niter i j k,
       i < img_nvoxels_xy self → j < img_nvoxels_xy self →
       k < img_nvoxels_z self →
       path_isfile fs (raw_path (prefix self) niter) = true →
       length (file_bytes fs (raw_path (prefix self) niter)) = nvoxels self * 4 →
       ∃ s_arr img,
         unpack_from unpack_f (nvoxels self)
           (file_bytes fs (raw_path (prefix self) niter)) = Some s_arr
         ∧ (read_image zero unpack_f fs self niter).2 = Returned img
         ∧ getitem img [i; j; k]
           = s_arr !! flat_index (img_nvoxels_xy self) (img_nvoxels_xy self) i j k)
  ∧ (∀ fs self x1 y1 z1 t1 x2 y2 z2 t2 i j k,
       i < img_nvoxels_xy self → j < img_nvoxels_xy self →
       k < img_nvoxels_z self →
       path_exists fs (folder_path_of (prefix self)) = true →
       same_lengths x1 y1 z1 t1 x2 y2 z2 t2 →
       size (smatrix self) = nvoxels self →
       ∃ img,
         (reconstruct zero c_float fs self x1 y1 z1 t1 x2 y2 z2 t2).2
         = Returned (Some img)
         ∧ getitem img [i; j; k]
           = Some (MLEM_TOF_Reco (lib self)
                     (marshal c_float self x1 y1 z1 t1 x2 y2 z2 t2
                        (flatten_F zero (smatrix self)))
                     (flat_index (img_nvoxels_xy self) (img_nvoxels_xy self) i j k))).
Proof.
  split; [| split].
  - intros nx ny nz i j k Hi Hj Hk.
    pose proof (flat_index_bound nx ny nz i j k Hi Hj Hk) as Hb.
    split; [exact Hb |].
    rewrite (voxel_index_Some nx ny nz _ Hb).
    rewrite (voxel_of_flat_index nx ny i j k Hi Hj). reflexivity.
  - intros fs self niter i j k Hi Hj Hk Hfile Hlen.
    destruct (read_image_right_length fs self niter Hfile Hlen)
      as (s_arr & img & Hun & _ & Hrun & _ & _ & _ & Hget).
    exists s_arr, img. split; [exact Hun |]. rewrite Hrun.
    split; [reflexivity |].
    rewrite <- (Hget _ (flat_index_bound _ _ _ i j k Hi Hj Hk)).
    rewrite voxel_tuple_flat_index by assumption. reflexivity.
  - intros fs self x1 y1 z1 t1 x2 y2 z2 t2 i j k Hi Hj Hk Hdir Hsame Hsize.
    apply lengths_differ_false in Hsame.
    destruct (reconstruct_runs fs self x1 y1 z1 t1 x2 y2 z2 t2 Hdir Hsame Hsize)
      as (img & Hrun & _ & _ & Hget).
    exists img. rewrite Hrun. split; [reflexivity |].
    rewrite <- (Hget _ (flat_index_bound _ _ _ i j k Hi Hj Hk)).
    rewrite voxel_tuple_flat_index by assumption. reflexivity.
Qed.

(** *** __init__ *)

Section Init.

Variables (prefix_arg : string) (niterations_arg save_every_arg : Z).
Variables (TOF_resolution_arg img_size_xy_arg img_size_z_arg : float).
Variables (img_nvoxels_xy_arg img_nvoxels_z_arg : nat).
Variables (libpath : string).

Local Abbreviation init TOF_arg smatrix_arg :=
  (__init__ one LoadLibrary prefix_arg niterations_arg save_every_arg TOF_arg
     TOF_resolution_arg img_size_xy_arg img_size_z_arg
     img_nvoxels_xy_arg img_nvoxels_z_arg smatrix_arg libpath).

(** The object the constructor builds once the library is loaded. *)
Lemma init_returns l TOF_arg smatrix_arg :
  LoadLibrary libpath = Some l →
  init TOF_arg smatrix_arg =
    (match smatrix_arg with None => [Stdout smatrix_notice] | Some _ => [] end,
     Returned
       {| prefix := prefix_arg;
          niterations := niterations_arg;
          save_every := save_every_arg;
          TOF := true;
          TOF_resolution := TOF_resolution_arg;
          img_size_xy := img_size_xy_arg;
          img_size_z := img_size_z_arg;
          img_nvoxels_xy := img_nvoxels_xy_arg;
          img_nvoxels_z := img_nvoxels_z_arg;
          smatrix :=
            match smatrix_arg with
            | None =>
                full float32
                  [img_nvoxels_xy_arg; img_nvoxels_xy_arg; img_nvoxels_z_arg] one
            | Some s => s
            end;
          lib := l |}).
Proof.
  intros Hl. unfold __init__. rewrite Hl.
  destruct smatrix_arg; reflexivity.
Qed.

(** The constructor never reads its [TOF] parameter: whatever is passed,
    the object it returns has [TOF = True], and so has every call of the
    engine made from that object. *)
Lemma init_ignores_TOF TOF_arg smatrix_arg :
  init TOF_arg smatrix_arg = init true smatrix_arg
  ∧ ∀ self, (init TOF_arg smatrix_arg).2 = Returned self →
      TOF self = true
      ∧ ∀ x1 y1 z1 t1 x2 y2 z2 t2 smat,
          arg_TOF (marshal c_float self x1 y1 z1 t1 x2 y2 z2 t2 smat) = true.
Proof.
  split; [reflexivity |].
  intros self. unfold __init__.
  destruct (LoadLibrary libpath) as [l |]; destruct smatrix_arg;
    cbn; intros H; try discriminate H;
    injection H as <-; split; reflexivity.
Qed.

(** C8: without a sensitivity matrix ([smatrix=None]) the constructor
    prints its notice and stores an array of shape
    (img_nvoxels_xy, img_nvoxels_xy, img_nvoxels_z) and element type
    float32 whose every element is 1.0; a sensitivity matrix that is given
    is stored as it is, with no notice. *)
Theorem init_smatrix l TOF_arg :
  LoadLibrary libpath = Some l →
  (∃ self,
     init TOF_arg None = ([Stdout smatrix_notice], Returned self)
     ∧ shape (smatrix self)
       = [img_nvoxels_xy_arg; img_nvoxels_xy_arg; img_nvoxels_z_arg]
     ∧ arr_dtype (smatrix self) = float32
     ∧ well_formed (smatrix self)
     ∧ ∀ i j k, i < img_nvoxels_xy_arg → j < img_nvoxels_xy_arg →
         k < img_nvoxels_z_arg → getitem (smatrix self) [i; j; k] = Some one)
  ∧ ∀ s, ∃ self,
      init TOF_arg (Some s) = ([], Returned self) ∧ smatrix self = s.
Proof.
  intros Hl. split.
  - eexists. split; [apply (init_returns l TOF_arg None Hl) |].
    cbn [smatrix]. split; [reflexivity |]. split; [reflexivity |].
    split; [apply full_well_formed |].
    intros i j k Hi Hj Hk. apply getitem_full; assumption.
  - intros s. eexists. split; [apply (init_returns l TOF_arg (Some s) Hl) |].
    reflexivity.
Qed.

End Init.

End ProgramFacts.

(** * The properties on the concrete platform *)

(** C1: evaluation at the failing input. Constructed with [TOF=False], the
    reconstructor holds [TOF = True], and the engine is called with time
    weighting enabled. *)
Theorem TOF_False_is_replaced_by_True :
  ∃ self args img,
    Examples.built_without_TOF = ([Stdout smatrix_notice], Returned self)
    ∧ TOF self = true
    ∧ reconstruct Single.zero Single.c_float Single.disk self
        [] [] [] [] [] [] [] []
      = ([EngineCall args], Returned (Some img))
    ∧ arg_TOF args = true.
Proof.
  eexists _, _, _. split; [reflexivity |]. split; [reflexivity |].
  split; reflexivity.
Qed.

(** A run of [read_image] on the 8-byte file [out/mlem4.raw], which holds
    the floats 1.0 and 2.0: they land at voxels (0,0,0) and (0,0,1). *)
Example read_image_two_voxels :
  ∃ img,
    read_image Single.zero Single.unpack_f Single.disk
      (Examples.two_voxels (full float32 [1; 1; 2] Single.one)) 4
    = ([Stdout "Read 8 bytes"], Returned img)
    ∧ getitem img [0; 0; 0] = Some 1065353216%N
    ∧ getitem img [0; 0; 1] = Some 1073741824%N.
Proof. eexists. repeat split. Qed.

(** C2: the claim as stated fails. The file [out/mlem3.raw] holds 3 bytes
    where a grid of one voxel needs 4: [read_image] returns an array to its
    caller, the all-zeros one, and signals no error. *)
Lemma read_image_short_file_returns :
  path_isfile Single.disk (raw_path "out/mlem" 3) = true
  ∧ length (file_bytes Single.disk (raw_path "out/mlem" 3)) = 3
  ∧ nvoxels Examples.one_voxel * 4 = 4
  ∧ read_image Single.zero Single.unpack_f Single.disk Examples.one_voxel 3
    = ([Stdout "Read 3 bytes"; Stdout "ERROR: unexpected data length 3"],
       Returned (full float64 [1; 1; 1] Single.zero))
  ∧ returns
      (read_image Single.zero Single.unpack_f Single.disk Examples.one_voxel 3).2.
Proof. repeat split. Qed.

Lemma read_image_wrong_length_witness :
  ∃ img,
    read_image Single.zero Single.unpack_f Single.disk Examples.one_voxel 3
    = ([Stdout "Read 3 bytes"; Stdout "ERROR: unexpected data length 3"],
       Returned img)
    ∧ shape img = [1; 1; 1]
    ∧ ∀ i j k, i < 1 → j < 1 → k < 1 → getitem img [i; j; k] = Some Single.zero.
Proof.
  apply (read_image_wrong_length Single.float Single.zero Single.unpack_f
           Single.disk Examples.one_voxel 3).
  - reflexivity.
  - vm_compute. lia.
Defined.

(** C3: the claim as stated fails. On a file system without [out/], the
    call with prefix [out/mlem] ends the process with status 1: nothing is
    returned to the caller. *)
Lemma reconstruct_missing_directory_exits :
  path_exists Single.empty_disk (folder_path_of "out/mlem") = false
  ∧ reconstruct Single.zero Single.c_float Single.empty_disk Examples.one_voxel
      [] [] [] [] [] [] [] []
    = ([Stderr "Path out/ doesn't exists - exit job"], Exited 1%Z)
  ∧ ¬ returns
        (reconstruct Single.zero Single.c_float Single.empty_disk
           Examples.one_voxel [] [] [] [] [] [] [] []).2.
Proof. split; [reflexivity |]. split; [reflexivity |]. intros []. Qed.

Lemma reconstruct_missing_directory_witness :
  reconstruct Single.zero Single.c_float Single.empty_disk Examples.one_voxel
    [] [] [] [] [] [] [] []
  = ([Stderr (missing_directory_line "out/")], Exited 1%Z)
  ∧ ¬ returns
        (reconstruct Single.zero Single.c_float Single.empty_disk
           Examples.one_voxel [] [] [] [] [] [] [] []).2
  ∧ ¬ engine_invoked
        (reconstruct Single.zero Single.c_float Single.empty_disk
           Examples.one_voxel [] [] [] [] [] [] [] []).1.
Proof.
  apply (reconstruct_missing_directory Single.float Single.zero Single.c_float
           Single.empty_disk Examples.one_voxel [] [] [] [] [] [] [] []).
  reflexivity.
Defined.

(** C9 at the default prefix, on a file system where every path exists. *)
Lemma reconstruct_prefix_without_slash_witness :
  Py.occurs "/" default_prefix = false
  ∧ reconstruct Single.zero Single.c_float Single.all_dirs
      (Examples.default_named (full float32 [1; 1; 2] Single.one))
      [] [] [] [] [] [] [] []
    = ([Stderr "Path  doesn't exists - exit job"], Exited 1%Z).
Proof.
  split; [reflexivity |].
  apply (reconstruct_prefix_without_slash Single.float Single.zero
           Single.c_float Single.all_dirs
           (Examples.default_named (full float32 [1; 1; 2] Single.one))
           [] [] [] [] [] [] [] []).
  reflexivity.
Defined.

(** C4: the claim as stated fails. With the default prefix, a batch whose
    first array has one element and the others none is never looked at:
    the process ends with status 1 and no validation error is returned. *)
Lemma reconstruct_mismatched_batch_exits :
  ¬ same_lengths [Single.one] [] [] [] [] [] [] ([] : list Single.float)
  ∧ reconstruct Single.zero Single.c_float Single.all_dirs
      (Examples.default_named (full float32 [1; 1; 2] Single.one))
      [Single.one] [] [] [] [] [] [] []
    = ([Stderr "Path  doesn't exists - exit job"], Exited 1%Z)
  ∧ ¬ returns
        (reconstruct Single.zero Single.c_float Single.all_dirs
           (Examples.default_named (full float32 [1; 1; 2] Single.one))
           [Single.one] [] [] [] [] [] [] []).2.
Proof.
  split; [intros (H & _); discriminate H |].
  split; [reflexivity | intros []].
Qed.

Lemma reconstruct_mismatched_batch_witness :
  ¬ engine_invoked
      (reconstruct Single.zero Single.c_float Single.disk
         (Examples.two_voxels (full float32 [1; 1; 2] Single.one))
         [Single.one] [] [] [] [] [] [] []).1
  ∧ (path_exists Single.disk (folder_path_of "out/mlem") = true →
     reconstruct Single.zero Single.c_float Single.disk
       (Examples.two_voxels (full float32 [1; 1; 2] Single.one))
       [Single.one] [] [] [] [] [] [] []
     = ([Stdout batch_line], Returned None))
  ∧ (path_exists Single.disk (folder_path_of "out/mlem") = false →
     (reconstruct Single.zero Single.c_float Single.disk
        (Examples.two_voxels (full float32 [1; 1; 2] Single.one))
        [Single.one] [] [] [] [] [] [] []).2
     = Exited 1%Z).
Proof.
  apply (reconstruct_mismatched_batch Single.float Single.zero Single.c_float
           Single.disk (Examples.two_voxels (full float32 [1; 1; 2] Single.one))
           [Single.one] [] [] [] [] [] [] []).
  intros (H & _). discriminate H.
Defined.

(** C5: evaluation at the failing input. The guard of the sensitivity
    matrix compares numbers of elements only, although its message asks for
    the dimensions: a matrix of shape (2,1,1) on a grid of shape (1,1,2),
    with the directory in place and an empty batch, passes it, and the
    engine is called with the wrongly-shaped matrix where the claim has an
    error returned. *)
Theorem reconstruct_accepts_reshaped_smatrix :
  let s := Ndarray float32 [2; 1; 1] [Single.one; Single.zero] in
  shape s ≠ grid (Examples.two_voxels s)
  ∧ ∃ img,
      reconstruct Single.zero Single.c_float Single.disk (Examples.two_voxels s)
        [] [] [] [] [] [] [] []
      = ([EngineCall
            (marshal Single.c_float (Examples.two_voxels s)
               [] [] [] [] [] [] [] [] [Single.one; Single.zero])],
         Returned (Some img)).
Proof.
  split; [discriminate |]. eexists. reflexivity.
Qed.

(** Two runs in which a sensitivity matrix of the wrong shape is not
    answered by a returned error. With the default prefix, a matrix of
    shape (1,1,1) on a grid of shape (1,1,2) is never looked at: the
    process ends with status 1. And with the directory in place, a matrix
    of shape (2,1,1) on that grid is handed to the engine. *)
Lemma reconstruct_wrong_shape_not_rejected :
  (shape (full float32 [1; 1; 1] Single.one)
     ≠ grid (Examples.default_named (full float32 [1; 1; 1] Single.one))
   ∧ reconstruct Single.zero Single.c_float Single.all_dirs
       (Examples.default_named (full float32 [1; 1; 1] Single.one))
       [] [] [] [] [] [] [] []
     = ([Stderr "Path  doesn't exists - exit job"], Exited 1%Z)
   ∧ ¬ returns
         (reconstruct Single.zero Single.c_float Single.all_dirs
            (Examples.default_named (full float32 [1; 1; 1] Single.one))
            [] [] [] [] [] [] [] []).2)
  ∧ (shape (Ndarray float32 [2; 1; 1] [Single.one; Single.zero])
       ≠ grid (Examples.two_voxels
                 (Ndarray float32 [2; 1; 1] [Single.one; Single.zero]))
     ∧ engine_invoked
         (reconstruct Single.zero Single.c_float Single.disk
            (Examples.two_voxels
               (Ndarray float32 [2; 1; 1] [Single.one; Single.zero]))
            [] [] [] [] [] [] [] []).1).
Proof.
  split.
  - split; [discriminate |]. split; [reflexivity | intros []].
  - split; [discriminate |].
    exists (marshal Single.c_float
              (Examples.two_voxels
                 (Ndarray float32 [2; 1; 1] [Single.one; Single.zero]))
              [] [] [] [] [] [] [] [] [Single.one; Single.zero]).
    apply list_elem_of_singleton. reflexivity.
Qed.

Lemma reconstruct_smatrix_wrong_size_witness :
  ¬ engine_invoked
      (reconstruct Single.zero Single.c_float Single.disk
         (Examples.two_voxels (full float32 [1; 1; 1] Single.one))
         [] [] [] [] [] [] [] []).1
  ∧ (path_exists Single.disk (folder_path_of "out/mlem") = true →
     same_lengths [] [] [] [] [] [] [] ([] : list Single.float) →
     reconstruct Single.zero Single.c_float Single.disk
       (Examples.two_voxels (full float32 [1; 1; 1] Single.one))
       [] [] [] [] [] [] [] []
     = ([Stdout "ERROR: sensitivity matrix must have dimensions [1,1,2]"],
        Returned None)).
Proof.
  apply (reconstruct_smatrix_wrong_size Single.float Single.zero Single.c_float
           Single.disk (Examples.two_voxels (full float32 [1; 1; 1] Single.one))
           [] [] [] [] [] [] [] []).
  vm_compute. lia.
Defined.

(** C7 on a grid of two voxels in z: position [0 + 0*1 + 1*1*1 = 1] of the
    array handed to the engine holds [smatrix[0,0,1]]. *)
Lemma smatrix_handed_over_x_fastest_witness :
  let s := Ndarray float32 [1; 1; 2] [Single.zero; Single.one] in
  ∃ v,
    (reconstruct Single.zero Single.c_float Single.disk (Examples.two_voxels s)
       [] [] [] [] [] [] [] []).1
    = [EngineCall
         (marshal Single.c_float (Examples.two_voxels s)
            [] [] [] [] [] [] [] [] (flatten_F Single.zero s))]
    ∧ getitem s [0; 0; 1] = Some v
    ∧ arg_smat
        (marshal Single.c_float (Examples.two_voxels s)
           [] [] [] [] [] [] [] [] (flatten_F Single.zero s))
        !! flat_index 1 1 0 0 1
      = Some (Single.c_float v).
Proof.
  intros s.
  apply (smatrix_handed_over_x_fastest Single.float Single.zero Single.c_float
           Single.disk (Examples.two_voxels s) [] [] [] [] [] [] [] []
           1 1 2 0 0 1).
  - reflexivity.
  - repeat split.
  - reflexivity.
  - reflexivity.
  - reflexivity.
  - lia.
  - lia.
  - lia.
Defined.

(** C6 at voxel (1,2,3) of a grid of 2 x 3 x 4 voxels: flat position 23. *)
Lemma flat_index_round_trip_witness :
  flat_index 2 3 1 2 3 < 2 * 3 * 4
  ∧ voxel_index 2 3 (flat_index 2 3 1 2 3) = Some (1, 2, 3).
Proof.
  apply (proj1 (flat_index_round_trip Single.float Single.zero Single.unpack_f
                  Single.c_float) 2 3 4 1 2 3); lia.
Defined.

(** C8 on the concrete platform, with the library at its default path. *)
Lemma init_smatrix_witness :
  (∃ self,
     __init__ Single.one Single.LoadLibrary "out/mlem" 1%Z (-1)%Z true
       Single.zero Single.zero Single.zero 1 2 None default_libpath
     = ([Stdout smatrix_notice], Returned self)
     ∧ shape (smatrix self) = [1; 1; 2]
     ∧ arr_dtype (smatrix self) = float32
     ∧ well_formed (smatrix self)
     ∧ ∀ i j k, i < 1 → j < 1 → k < 2 →
         getitem (smatrix self) [i; j; k] = Some Single.one)
  ∧ ∀ s, ∃ self,
      __init__ Single.one Single.LoadLibrary "out/mlem" 1%Z (-1)%Z true
        Single.zero Single.zero Single.zero 1 2 (Some s) default_libpath
      = ([], Returned self) ∧ smatrix self = s.
Proof.
  apply (init_smatrix Single.float Single.one Single.LoadLibrary
           "out/mlem" 1%Z (-1)%Z Single.zero Single.zero Single.zero 1 2
           default_libpath Single.echo true).
  reflexivity.
Defined.

(** * Further properties of the methods *)

(** ** Names of the image files *)

Lemma length_append s t :
  String.length (s +:+ t) = String.length s + String.length t.
Proof.
  induction s as [|c s IH]; [reflexivity |].
  change (S (String.length (s +:+ t)) = S (String.length s + String.length t)).
  rewrite IH. reflexivity.
Qed.

Lemma append_inj_r t : ∀ s1 s2, s1 +:+ t = s2 +:+ t → s1 = s2.
Proof.
  induction s1 as [|c s1 IH]; intros [|c' s2] E.
  - reflexivity.
  - apply (f_equal String.length) in E.
    change (String.length t = S (String.length (s2 +:+ t))) in E.
    rewrite length_append in E. lia.
  - apply (f_equal String.length) in E.
    change (S (String.length (s1 +:+ t)) = String.length t) in E.
    rewrite length_append in E. lia.
  - change (String c (s1 +:+ t) = String c' (s2 +:+ t)) in E.
    injection E as -> E. f_equal. apply IH. exact E.
Qed.

Lemma to_int_not_nil z :
  Z.to_int z ≠ Decimal.Pos Decimal.Nil ∧ Z.to_int z ≠ Decimal.Neg Decimal.Nil.
Proof.
  split; intros E; pose proof (f_equal Z.of_int E) as E';
    rewrite DecimalZ.of_to in E'; cbn in E'; subst z; discriminate E.
Qed.

(** [str] writes distinct integers differently. *)
Lemma str_int_inj n m : Py.str_int n = Py.str_int m → n = m.
Proof.
  unfold Py.str_int. intros E. apply DecimalZ.to_int_inj.
  destruct (to_int_not_nil n) as [Hn1 Hn2].
  destruct (to_int_not_nil m) as [Hm1 Hm2].
  pose proof (NilZero.isi _ Hn1 Hn2) as In.
  pose proof (NilZero.isi _ Hm1 Hm2) as Im.
  rewrite E in In. rewrite In in Im. injection Im as Im. exact Im.
Qed.

(** For one prefix, the images of distinct iterations are read from
    distinct files. *)
Theorem raw_path_distinct prefix n m :
  n ≠ m → raw_path prefix n ≠ raw_path prefix m.
Proof.
  unfold raw_path. intros Hne E. apply Hne.
  apply String.app_inj in E. apply append_inj_r in E.
  apply str_int_inj. exact E.
Qed.

Lemma raw_path_distinct_witness :
  raw_path "out/mlem" 3 ≠ raw_path "out/mlem" 4.
Proof. apply (raw_path_distinct "out/mlem" 3 4). lia. Defined.

(** ** The voxel of a position *)

(** Every position below the voxel count is the flat index of the voxel
    that the loop body computes from it, and that voxel lies in the grid:
    the loop over the positions writes each voxel of the image once. *)
Theorem voxel_index_inverts_flat_index nx ny nz p :
  p < nx * ny * nz →
  ∃ i j k, voxel_index nx ny p = Some (i, j, k)
    ∧ i < nx ∧ j < ny ∧ k < nz ∧ flat_index nx ny i j k = p.
Proof.
  intros Hp.
  assert (0 < nx ∧ 0 < ny) as [Hx Hy].
  { split; [destruct nx | destruct ny]; lia. }
  pose proof (voxel_of_bounds nx ny nz p Hp) as B.
  pose proof (flat_index_voxel_of nx ny p Hx Hy) as F.
  unfold voxel_index.
  destruct nx; [lia |]. destruct ny; [lia |]. cbn [Nat.eqb orb].
  destruct (voxel_of (S nx) (S ny) p) as [[i j] k].
  exists i, j, k. tauto.
Qed.

Lemma voxel_index_inverts_flat_index_witness :
  ∃ i j k, voxel_index 2 3 23 = Some (i, j, k)
    ∧ i < 2 ∧ j < 3 ∧ k < 4 ∧ flat_index 2 3 i j k = 23.
Proof. apply (voxel_index_inverts_flat_index 2 3 4 23). lia. Defined.

(** ** Column-major flattening of a filled image *)

Section FlattenFacts.

Context {A : Type}.

Lemma unravel_F_voxel_tuple nx ny nz p :
  p < nx * ny * nz → unravel_F [nx; ny; nz] p = voxel_tuple nx ny p.
Proof.
  intros Hp. unfold voxel_tuple, voxel_of. cbn [unravel_F].
  rewrite Nat.Div0.div_div. f_equal. f_equal. f_equal.
  apply Nat.mod_small. apply Nat.Div0.div_lt_upper_bound. lia.
Qed.

(** An image that holds, at the voxel of each position, the element of a
    list at that position flattens column-major to that list. *)
Lemma flatten_F_filled (fallback : A) (img : ndarray A) nx ny nz (l : list A) :
  shape img = [nx; ny; nz] → length l = nx * ny * nz →
  (∀ p, p < nx * ny * nz → getitem img (voxel_tuple nx ny p) = l !! p) →
  flatten_F fallback img = l.
Proof.
  intros Hs Hl Hget. apply list_eq. intros p.
  unfold flatten_F, size. rewrite Hs, size_of_3, list_lookup_fmap.
  destruct (decide (p < nx * ny * nz)) as [Hp | Hp].
  - rewrite lookup_seq_lt by exact Hp. cbn [fmap option_fmap option_map].
    rewrite Nat.add_0_l, unravel_F_voxel_tuple, (Hget p Hp) by exact Hp.
    destruct (lookup_lt_is_Some_2 l p) as [x Hx]; [lia |].
    rewrite Hx. reflexivity.
  - rewrite lookup_seq_ge by lia. symmetry. apply lookup_ge_None_2. lia.
Qed.

Lemma flatten_F_full (fallback : A) t nx ny nz (v : A) :
  flatten_F fallback (full t [nx; ny; nz] v) = replicate (nx * ny * nz) v.
Proof.
  apply (flatten_F_filled _ _ nx ny nz); [reflexivity | apply length_replicate |].
  intros p Hp.
  pose proof (voxel_of_bounds nx ny nz p Hp) as B. unfold voxel_tuple.
  destruct (voxel_of nx ny p) as [[i j] k]. destruct B as (Hi & Hj & Hk).
  rewrite getitem_full by assumption.
  symmetry. apply lookup_replicate_2. exact Hp.
Qed.

End FlattenFacts.

(** ** The methods, beyond the stated claims *)

Lemma c_int_small z : (- 2 ^ 31 ≤ z < 2 ^ 31)%Z → Py.c_int z = z.
Proof.
  intros Hz. unfold Py.c_int. rewrite Z.mod_small; lia.
Qed.

(** A trace of printed lines holds no call of the engine. *)
Ltac only_prints :=
  let a := fresh "a" in
  let H := fresh "H" in
  intros [a H];
  repeat (apply elem_of_cons in H as [H | H]; [discriminate H |]);
  apply elem_of_nil in H; exact H.

Section MoreProgramFacts.

Variable float : Type.
Variable zero one : float.
Variable unpack_f : byte → byte → byte → byte → float.
Variable c_float : float → float.
Variable LoadLibrary : string → option (library float).

(** [read_image] looks at the prefix and the voxel counts of the
    reconstructor and at the one file it names, and at nothing else: not at
    the sensitivity matrix, the library or the other settings, and not at
    any other path of the file system. *)
Theorem read_image_local fs fs' (self self' : MLEMReconstructor float) niter :
  prefix self = prefix self' →
  img_nvoxels_xy self = img_nvoxels_xy self' →
  img_nvoxels_z self = img_nvoxels_z self' →
  fs (raw_path (prefix self) niter) = fs' (raw_path (prefix self) niter) →
  read_image zero unpack_f fs self niter
  = read_image zero unpack_f fs' self' niter.
Proof.
  intros Hp Hxy Hz Hfs. unfold read_image, path_isfile, file_bytes.
  rewrite <- Hp, <- Hxy, <- Hz, <- Hfs. reflexivity.
Qed.

(** The image read from a file of the right length, flattened column-major
    as [reconstruct] flattens the sensitivity matrix, is the sequence of
    floats of the file in file order; the image has the grid's shape and
    double-precision elements. *)
Theorem read_image_flattens_to_file fs (self : MLEMReconstructor float) niter :
  path_isfile fs (raw_path (prefix self) niter) = true →
  length (file_bytes fs (raw_path (prefix self) niter)) = nvoxels self * 4 →
  ∃ s_arr img,
    unpack_from unpack_f (nvoxels self)
      (file_bytes fs (raw_path (prefix self) niter)) = Some s_arr
    ∧ read_image zero unpack_f fs self niter
      = ([Stdout ("Read " +:+ Py.str_nat (nvoxels self * 4) +:+ " bytes")],
         Returned img)
    ∧ shape img = grid self ∧ arr_dtype img = float64
    ∧ flatten_F zero img = s_arr.
Proof.
  intros Hfile Hlen.
  destruct (read_image_right_length float zero unpack_f c_float fs self niter Hfile Hlen)
    as (s_arr & img & Hun & Hl & Hrun & Hs & Hd & _ & Hget).
  exists s_arr, img. repeat (split; [assumption |]).
  exact (flatten_F_filled zero img _ _ _ s_arr Hs Hl Hget).
Qed.

(** The return value of [read_image] does not tell a failed read from an
    image of zeros, but its output does: a line that starts with "ERROR" is
    printed exactly when the file is absent or has an unexpected length. *)
Theorem read_image_error_line fs (self : MLEMReconstructor float) niter :
  error_printed (read_image zero unpack_f fs self niter).1 = true
  ↔ path_isfile fs (raw_path (prefix self) niter) = false
    ∨ length (file_bytes fs (raw_path (prefix self) niter)) ≠ nvoxels self * 4.
Proof.
  destruct (path_isfile fs (raw_path (prefix self) niter)) eqn:Hfile.
  - destruct (decide (length (file_bytes fs (raw_path (prefix self) niter))
                      = nvoxels self * 4)) as [Hlen | Hlen].
    + destruct (read_image_right_length float zero unpack_f c_float
                  fs self niter Hfile Hlen)
        as (s_arr & img & _ & _ & -> & _).
      cbn. split; [discriminate | intros [? | ?]; [discriminate | contradiction]].
    + rewrite (read_image_unexpected_length float zero unpack_f
                 fs self niter Hfile Hlen).
      split; [intros _; right; exact Hlen | intros _; reflexivity].
  - rewrite (read_image_absent float zero unpack_f fs self niter Hfile).
    split; [intros _; left; reflexivity | intros _; reflexivity].
Qed.

Section MoreReconstruct.

Variables (fs : filesystem) (self : MLEMReconstructor float).
Variables (x1 y1 z1 t1 x2 y2 z2 t2 : list float).

Local Abbreviation run := (reconstruct zero c_float fs self x1 y1 z1 t1 x2 y2 z2 t2).
Local Abbreviation args :=
  (marshal c_float self x1 y1 z1 t1 x2 y2 z2 t2 (flatten_F zero (smatrix self))).
Local Abbreviation answer :=
  (MLEM_TOF_Reco (lib self) args <$> seq 0 (nvoxels self)).

(** The four ways a call of [reconstruct] ends, in the order of its
    guards. *)
Lemma reconstruct_table :
  (path_exists fs (folder_path_of (prefix self)) = false
   ∧ run = ([Stderr (missing_directory_line (folder_path_of (prefix self)))],
            Exited 1%Z))
  ∨ (path_exists fs (folder_path_of (prefix self)) = true
     ∧ ¬ same_lengths x1 y1 z1 t1 x2 y2 z2 t2
     ∧ run = ([Stdout batch_line], Returned None))
  ∨ (path_exists fs (folder_path_of (prefix self)) = true
     ∧ same_lengths x1 y1 z1 t1 x2 y2 z2 t2
     ∧ size (smatrix self) ≠ nvoxels self
     ∧ run = ([Stdout (smatrix_line self)], Returned None))
  ∨ (path_exists fs (folder_path_of (prefix self)) = true
     ∧ same_lengths x1 y1 z1 t1 x2 y2 z2 t2
     ∧ size (smatrix self) = nvoxels self
     ∧ ∃ img, run = ([EngineCall args], Returned (Some img))).
Proof.
  destruct (path_exists fs (folder_path_of (prefix self))) eqn:Hdir.
  - destruct (lengths_differ x1 y1 z1 t1 x2 y2 z2 t2) eqn:Hlen.
    + right. left. split; [reflexivity |]. split.
      * intros Hsame. apply (lengths_differ_false float zero c_float) in Hsame. congruence.
      * apply reconstruct_rejects_batch; assumption.
    + pose proof (proj1 (lengths_differ_false float zero c_float _ _ _ _ _ _ _ _) Hlen) as Hsame.
      destruct (decide (size (smatrix self) = nvoxels self)) as [Hsz | Hsz].
      * right. right. right.
        destruct (reconstruct_runs float zero c_float fs self
                    x1 y1 z1 t1 x2 y2 z2 t2 Hdir Hlen Hsz) as (img & Hrun & _).
        repeat (split; [assumption || reflexivity |]). exists img. exact Hrun.
      * right. right. left.
        repeat (split; [assumption || reflexivity |]).
        apply reconstruct_rejects_smatrix; assumption.
  - left. split; [reflexivity |]. apply reconstruct_exits. exact Hdir.
Qed.

(** The guards of [reconstruct] act in their order. The process is ended
    exactly when the directory of the prefix does not exist. [None] is
    returned exactly when the directory exists and the batch or the
    sensitivity matrix is rejected, and the one line printed tells which:
    the line of the batch exactly when the lengths differ, the line of the
    matrix exactly when the lengths agree and the number of elements is
    not the number of voxels. An image is returned, and the engine called,
    only when all three guards have passed, and the trace then is that one
    call. *)
Theorem reconstruct_guards_in_order :
  ((∃ status, run.2 = Exited status)
   ↔ path_exists fs (folder_path_of (prefix self)) = false)
  ∧ (run.2 = Returned None
     ↔ path_exists fs (folder_path_of (prefix self)) = true
       ∧ (¬ same_lengths x1 y1 z1 t1 x2 y2 z2 t2
          ∨ size (smatrix self) ≠ nvoxels self))
  ∧ (run.1 = [Stdout batch_line]
     ↔ path_exists fs (folder_path_of (prefix self)) = true
       ∧ ¬ same_lengths x1 y1 z1 t1 x2 y2 z2 t2)
  ∧ (run.1 = [Stdout (smatrix_line self)]
     ↔ path_exists fs (folder_path_of (prefix self)) = true
       ∧ same_lengths x1 y1 z1 t1 x2 y2 z2 t2
       ∧ size (smatrix self) ≠ nvoxels self)
  ∧ ((∃ img, run.2 = Returned (Some img)) →
     path_exists fs (folder_path_of (prefix self)) = true
     ∧ same_lengths x1 y1 z1 t1 x2 y2 z2 t2
     ∧ size (smatrix self) = nvoxels self)
  ∧ (engine_invoked run.1 →
     path_exists fs (folder_path_of (prefix self)) = true
     ∧ same_lengths x1 y1 z1 t1 x2 y2 z2 t2
     ∧ size (smatrix self) = nvoxels self
     ∧ run.1 = [EngineCall args]).
Proof.
  assert (Hlines : ([Stdout (smatrix_line self)] : list (event float))
                   ≠ [Stdout batch_line]).
  { intros E. injection E as E. discriminate E. }
  destruct reconstruct_table
    as [(Hdir & ->) | [(Hdir & Hb & ->) | [(Hdir & Hb & Hs & ->)
        | (Hdir & Hb & Hs & img & ->)]]]; cbn [fst snd];
    rewrite Hdir.
  - split; [split; [reflexivity | eauto] |].
    split; [split; [| intros (? & _)]; discriminate |].
    split; [split; [| intros (? & _)]; discriminate |].
    split; [split; [| intros (? & _)]; discriminate |].
    split; [intros [? ?]; discriminate |].
    intros Hinv. exfalso. revert Hinv. only_prints.
  - split; [split; [intros [? ?] |]; discriminate |].
    split; [tauto |].
    split; [tauto |].
    split; [split; [intros E; symmetry in E; contradiction | tauto] |].
    split; [intros [? ?]; discriminate |].
    intros Hinv. exfalso. revert Hinv. only_prints.
  - split; [split; [intros [? ?] |]; discriminate |].
    split; [tauto |].
    split; [split; [intros E; contradiction | tauto] |].
    split; [tauto |].
    split; [intros [? ?]; discriminate |].
    intros Hinv. exfalso. revert Hinv. only_prints.
  - split; [split; [intros [? ?] |]; discriminate |].
    split; [split; [discriminate | tauto] |].
    split; [split; [discriminate | tauto] |].
    split; [split; [discriminate | tauto] |].
    split; tauto.
Qed.

(** [reconstruct] returns [None] exactly when it has printed a line that
    starts with "ERROR": a rejected batch or sensitivity matrix is always
    announced, and nothing else is announced so. *)
Theorem reconstruct_None_iff_error_line :
  run.2 = Returned None ↔ error_printed run.1 = true.
Proof.
  destruct reconstruct_table
    as [(Hdir & ->) | [(Hdir & Hb & ->) | [(Hdir & Hb & Hs & ->)
        | (Hdir & Hb & Hs & img & ->)]]]; cbn [fst snd].
  - split; discriminate.
  - split; reflexivity.
  - split; reflexivity.
  - split; discriminate.
Qed.

(** Whenever the engine is called, every array handed to it has the length
    it is told: the eight arrays of the batch have the length of [lor_x1],
    the sensitivity array has one element per voxel, and below 2^31 the
    counts passed as C ints are these very numbers. *)
Theorem engine_arrays_match_counts a :
  EngineCall a ∈ run.1 →
  length (arg_lor_x1 a) = length x1 ∧ length (arg_lor_y1 a) = length x1
  ∧ length (arg_lor_z1 a) = length x1 ∧ length (arg_lor_t1 a) = length x1
  ∧ length (arg_lor_x2 a) = length x1 ∧ length (arg_lor_y2 a) = length x1
  ∧ length (arg_lor_z2 a) = length x1 ∧ length (arg_lor_t2 a) = length x1
  ∧ length (arg_smat a) = nvoxels self
  ∧ ((Z.of_nat (length x1) < 2 ^ 31)%Z → arg_ncoinc a = Z.of_nat (length x1))
  ∧ ((Z.of_nat (img_nvoxels_xy self) < 2 ^ 31)%Z →
     arg_img_nvoxels_xy a = Z.of_nat (img_nvoxels_xy self))
  ∧ ((Z.of_nat (img_nvoxels_z self) < 2 ^ 31)%Z →
     arg_img_nvoxels_z a = Z.of_nat (img_nvoxels_z self)).
Proof.
  intros Hin.
  destruct reconstruct_table
    as [(Hdir & Hrun) | [(Hdir & Hb & Hrun) | [(Hdir & Hb & Hs & Hrun)
        | (Hdir & Hb & Hs & img & Hrun)]]]; rewrite Hrun in Hin; cbn [fst] in Hin.
  1-3: exfalso; apply list_elem_of_singleton in Hin; discriminate Hin.
  apply list_elem_of_singleton in Hin. injection Hin as ->.
  destruct Hb as (H1 & H2 & H3 & H4 & H5 & H6 & H7).
  cbn [marshal arg_lor_x1 arg_lor_y1 arg_lor_z1 arg_lor_t1 arg_lor_x2
       arg_lor_y2 arg_lor_z2 arg_lor_t2 arg_smat arg_ncoinc
       arg_img_nvoxels_xy arg_img_nvoxels_z].
  rewrite !length_fmap, length_flatten_F.
  repeat (split; [assumption || reflexivity |]).
  split; [| split]; intros Hsmall; apply c_int_small; lia.
Qed.

(** Past the guards, the image that [reconstruct] returns has the shape of
    the voxel grid (the voxel counts, not the sizes in mm) and
    double-precision elements, and flattened column-major it is the first
    [nvoxels] floats of the engine's answer, in the engine's order. *)
Theorem reconstruct_flattens_to_answer :
  path_exists fs (folder_path_of (prefix self)) = true →
  same_lengths x1 y1 z1 t1 x2 y2 z2 t2 →
  size (smatrix self) = nvoxels self →
  ∃ img,
    run = ([EngineCall args], Returned (Some img))
    ∧ shape img = grid self ∧ arr_dtype img = float64
    ∧ flatten_F zero img = answer.
Proof.
  intros Hdir Hsame Hsize. apply (lengths_differ_false float zero c_float) in Hsame.
  destruct (fill_image_spec float zero c_float (img_nvoxels_xy self) (img_nvoxels_xy self)
              (img_nvoxels_z self) answer 0
              (full float64 (grid self) zero) eq_refl
              (full_well_formed _ _ _))
    as (img & Hfill & Hs & Hd & _ & Hget).
  { rewrite length_fmap, length_seq. unfold nvoxels. lia. }
  exists img. split; [| split; [exact Hs | split; [exact Hd |]]].
  - unfold reconstruct.
    rewrite Hdir, Hsame, length_flatten_F. cbn [negb].
    fold (nvoxels self). rewrite Hsize, Nat.eqb_refl. cbn [negb].
    unfold call_MLEM_TOF_Reco. fold (grid self).
    unfold mbind at 1. unfold M_bind at 1.
    rewrite Hfill. reflexivity.
  - apply (flatten_F_filled zero img _ _ _ answer Hs).
    + rewrite length_fmap, length_seq. reflexivity.
    + intros p Hp. rewrite (Hget p Hp), length_fmap, length_seq.
      case_decide; [| unfold nvoxels in *; lia].
      rewrite Nat.sub_0_r. reflexivity.
Qed.

(** Reading back a file that holds the floats of the engine's answer gives
    the very image that [reconstruct] returned: the two methods lay the
    floats out in the same way. *)
Theorem read_image_reproduces_reconstruct fs' niter :
  path_exists fs (folder_path_of (prefix self)) = true →
  same_lengths x1 y1 z1 t1 x2 y2 z2 t2 →
  size (smatrix self) = nvoxels self →
  path_isfile fs' (raw_path (prefix self) niter) = true →
  length (file_bytes fs' (raw_path (prefix self) niter)) = nvoxels self * 4 →
  unpack_from unpack_f (nvoxels self)
    (file_bytes fs' (raw_path (prefix self) niter)) = Some answer →
  ∃ img,
    run.2 = Returned (Some img)
    ∧ (read_image zero unpack_f fs' self niter).2 = Returned img.
Proof.
  intros Hdir Hsame Hsize Hfile Hlen Hun. apply (lengths_differ_false float zero c_float) in Hsame.
  destruct (fill_image_spec float zero c_float (img_nvoxels_xy self) (img_nvoxels_xy self)
              (img_nvoxels_z self) answer 0
              (full float64 (grid self) zero) eq_refl
              (full_well_formed _ _ _))
    as (img & Hfill & _).
  { rewrite length_fmap, length_seq. unfold nvoxels. lia. }
  exists img. split.
  - unfold reconstruct.
    rewrite Hdir, Hsame, length_flatten_F. cbn [negb].
    fold (nvoxels self). rewrite Hsize, Nat.eqb_refl. cbn [negb].
    unfold call_MLEM_TOF_Reco. fold (grid self).
    unfold mbind at 1. unfold M_bind at 1.
    rewrite Hfill. reflexivity.
  - unfold read_image. rewrite Hfile, bind_print. fold (nvoxels self).
    rewrite Hlen, Nat.eqb_refl, Hun, bind_or_raise_Some. fold (grid self).
    rewrite Hfill. reflexivity.
Qed.

End MoreReconstruct.

(** A reconstructor built without a sensitivity matrix always passes the
    guard of the matrix: with the directory in place and a batch of one
    length, the engine is called and receives one 1.0 per voxel. *)
Theorem default_smatrix_reaches_engine
    fs l prefix_arg niterations_arg save_every_arg TOF_arg TOF_resolution_arg
    img_size_xy_arg img_size_z_arg img_nvoxels_xy_arg img_nvoxels_z_arg libpath
    (x1 y1 z1 t1 x2 y2 z2 t2 : list float) :
  LoadLibrary libpath = Some l →
  path_exists fs (folder_path_of prefix_arg) = true →
  same_lengths x1 y1 z1 t1 x2 y2 z2 t2 →
  ∃ self a img,
    __init__ one LoadLibrary prefix_arg niterations_arg save_every_arg TOF_arg
      TOF_resolution_arg img_size_xy_arg img_size_z_arg
      img_nvoxels_xy_arg img_nvoxels_z_arg None libpath
    = ([Stdout smatrix_notice], Returned self)
    ∧ reconstruct zero c_float fs self x1 y1 z1 t1 x2 y2 z2 t2
      = ([EngineCall a], Returned (Some img))
    ∧ arg_smat a
      = replicate (img_nvoxels_xy_arg * img_nvoxels_xy_arg * img_nvoxels_z_arg)
          (c_float one).
Proof.
  intros Hl Hdir Hsame. apply (lengths_differ_false float zero c_float) in Hsame.
  eexists. eexists. 
  pose proof (init_returns float one LoadLibrary prefix_arg niterations_arg
                save_every_arg TOF_resolution_arg img_size_xy_arg img_size_z_arg
                img_nvoxels_xy_arg img_nvoxels_z_arg libpath l TOF_arg None Hl)
    as Hinit.
  match type of Hinit with _ = (_, Returned ?s) =>
    destruct (reconstruct_runs float zero c_float fs s
                x1 y1 z1 t1 x2 y2 z2 t2 Hdir Hsame) as (img & Hrun & _)
  end.
  { unfold size, nvoxels. cbn [smatrix full shape img_nvoxels_xy img_nvoxels_z].
    apply size_of_3. }
  exists img. split; [exact Hinit |]. split; [exact Hrun |].
  cbn [marshal arg_smat smatrix]. rewrite flatten_F_full.
  apply fmap_replicate.
Qed.

End MoreProgramFacts.

(** ** The further properties on the concrete platform *)

Lemma read_image_local_witness :
  read_image Single.zero Single.unpack_f Single.disk Examples.ramp 4
  = read_image Single.zero Single.unpack_f Examples.lone_file
      (Examples.two_voxels (full float32 [1; 1; 2] Single.one)) 4.
Proof.
  apply (read_image_local Single.float Single.zero Single.unpack_f
           Single.disk Examples.lone_file Examples.ramp
           (Examples.two_voxels (full float32 [1; 1; 2] Single.one)) 4);
    reflexivity.
Defined.

Lemma read_image_flattens_to_file_witness :
  ∃ s_arr img,
    unpack_from Single.unpack_f 2
      (file_bytes Single.disk (raw_path "out/mlem" 4)) = Some s_arr
    ∧ read_image Single.zero Single.unpack_f Single.disk Examples.ramp 4
      = ([Stdout "Read 8 bytes"], Returned img)
    ∧ shape img = [1; 1; 2] ∧ arr_dtype img = float64
    ∧ flatten_F Single.zero img = s_arr.
Proof.
  apply (read_image_flattens_to_file Single.float Single.zero Single.unpack_f
           Single.c_float Single.disk Examples.ramp 4); reflexivity.
Defined.

Lemma engine_arrays_match_counts_witness :
  let a :=
    marshal Single.c_float Examples.ramp
      [Single.one] [Single.one] [Single.one] [Single.zero]
      [Single.one] [Single.one] [Single.one] [Single.zero]
      (flatten_F Single.zero Examples.one_two) in
  length (arg_lor_t2 a) = 1 ∧ length (arg_smat a) = 2 ∧ arg_ncoinc a = 1%Z.
Proof.
  intros a.
  destruct (engine_arrays_match_counts Single.float Single.zero Single.c_float
              Single.disk Examples.ramp
              [Single.one] [Single.one] [Single.one] [Single.zero]
              [Single.one] [Single.one] [Single.one] [Single.zero] a)
    as (_ & _ & _ & _ & _ & _ & _ & Ht2 & Hsmat & Hn & _).
  - apply list_elem_of_singleton. reflexivity.
  - split; [exact Ht2 |]. split; [exact Hsmat |]. apply Hn. reflexivity.
Defined.

Lemma reconstruct_flattens_to_answer_witness :
  ∃ img,
    reconstruct Single.zero Single.c_float Single.disk Examples.ramp
      [] [] [] [] [] [] [] []
    = ([EngineCall
          (marshal Single.c_float Examples.ramp [] [] [] [] [] [] [] []
             (flatten_F Single.zero Examples.one_two))],
       Returned (Some img))
    ∧ shape img = [1; 1; 2] ∧ arr_dtype img = float64
    ∧ flatten_F Single.zero img = [1065353216%N; 1073741824%N].
Proof.
  apply (reconstruct_flattens_to_answer Single.float Single.zero Single.c_float
           Single.disk Examples.ramp [] [] [] [] [] [] [] []).
  - reflexivity.
  - repeat split.
  - reflexivity.
Defined.

Lemma read_image_reproduces_reconstruct_witness :
  ∃ img,
    (reconstruct Single.zero Single.c_float Single.disk Examples.ramp
       [] [] [] [] [] [] [] []).2
    = Returned (Some img)
    ∧ (read_image Single.zero Single.unpack_f Single.disk Examples.ramp 4).2
      = Returned img.
Proof.
  apply (read_image_reproduces_reconstruct Single.float Single.zero
           Single.unpack_f Single.c_float Single.disk Examples.ramp
           [] [] [] [] [] [] [] [] Single.disk 4).
  - reflexivity.
  - repeat split.
  - reflexivity.
  - reflexivity.
  - reflexivity.
  - reflexivity.
Defined.

Lemma default_smatrix_reaches_engine_witness :
  ∃ self a img,
    __init__ Single.one Single.LoadLibrary "out/mlem" 1%Z (-1)%Z true
      Single.zero Single.zero Single.zero 1 2 None default_libpath
    = ([Stdout smatrix_notice], Returned self)
    ∧ reconstruct Single.zero Single.c_float Single.disk self
        [] [] [] [] [] [] [] []
      = ([EngineCall a], Returned (Some img))
    ∧ arg_smat a = replicate (1 * 1 * 2) (Single.c_float Single.one).
Proof.
  apply (default_smatrix_reaches_engine Single.float Single.zero Single.one
           Single.c_float Single.LoadLibrary Single.disk Single.echo
           "out/mlem" 1%Z (-1)%Z true Single.zero Single.zero Single.zero 1 2
           default_libpath [] [] [] [] [] [] [] []).
  - reflexivity.
  - reflexivity.
  - repeat split.
Defined.
